(** * ansible-truenas: the Incus instance module and its REST transport

    A shallow embedding of [plugins/module_utils/rest_api.py] and of
    [plugins/modules/truenas_incus_instance.py].

    Python values are a small inductive type; the curl process, the clock,
    [time.sleep], [json.loads], [json.dumps] and [repr] are the fields of a
    [Runtime] record over an abstract world, so every theorem holds for any
    back end.  Functions that call the API are written in a state-and-error
    monad whose state carries the world and the log of the calls issued. *)

From Stdlib Require Import ZArith QArith Lqa List String Ascii Bool Lia DecimalString.
Import ListNotations.

Local Open Scope string_scope.
Local Open Scope Z_scope.

Set Warnings "-register-all".

(* ===================================================================== *)
(** ** Python values and the builtins the modules use *)
(* ===================================================================== *)

Module Py.

(** What [json.loads] can return and what the module's parameters hold.
    JSON numbers are integers here: no code path inspects a float. *)
Inductive value : Type :=
| VNone
| VBool (b : bool)
| VInt (n : Z)
| VStr (s : string)
| VList (l : list value)
| VDict (d : list (string * value)).

Definition dict : Type := list (string * value).

(** The exceptions the modelled code can let escape. *)
Inductive exn : Type :=
| AttributeError
| TypeError
| KeyError
| RecursionError.

(** How a piece of code ends: a normal return, [module.fail_json] (which
    ends the run with a message), an uncaught exception, or, for the
    polling loop only, exhausted fuel. *)
Inductive outcome (A : Type) : Type :=
| Ok (a : A)
| FailJson (msg : string)
| Raise (e : exn)
| OutOfFuel.

Arguments Ok {A} a.
Arguments FailJson {A} msg.
Arguments Raise {A} e.
Arguments OutOfFuel {A}.

(** [bool(v)] *)
Definition truthy (v : value) : bool :=
  match v with
  | VNone => false
  | VBool b => b
  | VInt n => negb (n =? 0)
  | VStr s => negb (s =? "")%string
  | VList l => match l with [] => false | _ :: _ => true end
  | VDict d => match d with [] => false | _ :: _ => true end
  end.

Definition dict_truthy (d : dict) : bool :=
  match d with [] => false | _ :: _ => true end.

(** [bool(o)] for a parameter that is [None] or a dict *)
Definition opt_dict_truthy (o : option dict) : bool :=
  match o with Some d => dict_truthy d | None => false end.

(** [bool(o)] for a parameter that is [None] or a str *)
Definition opt_str_truthy (o : option string) : bool :=
  match o with Some s => negb (s =? "")%string | None => false end.

Fixpoint dict_lookup (d : dict) (k : string) : option value :=
  match d with
  | [] => None
  | (k', v) :: d' => if (k' =? k)%string then Some v else dict_lookup d' k
  end.

(** [d.get(k)] on a dict *)
Definition dict_get (d : dict) (k : string) : value :=
  match dict_lookup d k with Some v => v | None => VNone end.

(** [v.get(k)]: only a dict has the method. *)
Definition py_get (v : value) (k : string) : outcome value :=
  match v with
  | VDict d => Ok (dict_get d k)
  | _ => Raise AttributeError
  end.

(** [v[k]] with a string key *)
Definition subscript (v : value) (k : string) : outcome value :=
  match v with
  | VDict d => match dict_lookup d k with Some x => Ok x | None => Raise KeyError end
  | _ => Raise TypeError
  end.

(** [v == s] for a str [s]: only an equal str compares equal. *)
Definition value_eq_str (v : value) (s : string) : bool :=
  match v with
  | VStr s' => (s' =? s)%string
  | _ => false
  end.

Fixpoint chars (s : string) : list value :=
  match s with
  | EmptyString => []
  | String c s' => VStr (String c EmptyString) :: chars s'
  end.

(** [iter(v)], as a [for] loop consumes it: a list gives its elements, a
    dict its keys, a str its characters; anything else is not iterable. *)
Definition py_iter (v : value) : outcome (list value) :=
  match v with
  | VList l => Ok l
  | VDict d => Ok (map (fun kv => VStr (fst kv)) d)
  | VStr s => Ok (chars s)
  | _ => Raise TypeError
  end.

(** [s.startswith(p)] *)
Definition startswith (p s : string) : bool := String.prefix p s.

(** [sub in s] *)
Fixpoint contains (sub s : string) : bool :=
  String.prefix sub s ||
  match s with
  | EmptyString => false
  | String _ s' => contains sub s'
  end.

(** [s.lstrip(c)] for a single character *)
Fixpoint lstrip (c : ascii) (s : string) : string :=
  match s with
  | EmptyString => EmptyString
  | String a s' => if Ascii.eqb a c then lstrip c s' else s
  end.

(** [s.rstrip(c)] for a single character *)
Fixpoint rstrip (c : ascii) (s : string) : string :=
  match s with
  | EmptyString => EmptyString
  | String a s' =>
      match rstrip c s' with
      | EmptyString => if Ascii.eqb a c then EmptyString else String a EmptyString
      | r => String a r
      end
  end.

(** [str(n)] for an int *)
Definition str_int (n : Z) : string := NilZero.string_of_int (Z.to_int n).

(** [x in l] for strings *)
Definition str_in (x : string) (l : list string) : bool :=
  existsb (String.eqb x) l.

(** [x in l] for ints *)
Definition int_in (x : Z) (l : list Z) : bool :=
  existsb (Z.eqb x) l.

End Py.

Import Py.

(* ===================================================================== *)
(** ** The runtime, and the monad of code that talks to it *)
(* ===================================================================== *)

(** How [json.loads] ends on a text: it returns a value; it raises
    [JSONDecodeError], a [ValueError], as on the empty string and on text
    that is not JSON; or it raises something else, as [RecursionError] on
    a text nested deeper than the interpreter allows. *)
Inductive loaded : Type :=
| Loaded (v : value)
| DecodeError
| Escaped (e : exn).

(** What the modules reach outside Python: [module.run_command] (the curl
    process, returning exit code, stdout and stderr), the clock, the json
    library and [repr]. *)
Record Runtime (W : Type) : Type := {
  run_command : list string -> W -> (Z * string * string) * W;
  time_time : W -> Q * W;
  time_sleep : Z -> W -> W;
  json_loads : string -> loaded;
  json_dumps : value -> string;
  py_repr : value -> string
}.

Arguments run_command {W} _ _ _.
Arguments time_time {W} _ _.
Arguments time_sleep {W} _ _ _.
Arguments json_loads {W} _ _.
Arguments json_dumps {W} _ _.
Arguments py_repr {W} _ _.

(** The [data] argument of a call: a dict, or an already serialised str. *)
Inductive body : Type :=
| BodyDict (d : dict)
| BodyText (s : string).

(** What an observer of the run sees: the API calls, as the tests assert
    them ([call(url, method=..., data=...)]), and the sleeps. *)
Inductive event : Type :=
| EvCall (url method : string) (data : option body)
| EvSleep (secs : Z).

Record State (W : Type) : Type := {
  world : W;
  log : list event
}.

Arguments world {W} _.
Arguments log {W} _.

Definition M (W A : Type) : Type := State W -> outcome A * State W.

Definition ret {W A} (a : A) : M W A := fun st => (Ok a, st).

Definition bind {W A B} (m : M W A) (k : A -> M W B) : M W B :=
  fun st =>
    match m st with
    | (Ok a, st') => k a st'
    | (FailJson msg, st') => (FailJson msg, st')
    | (Raise e, st') => (Raise e, st')
    | (OutOfFuel, st') => (OutOfFuel, st')
    end.

(** A computation that touches no state. *)
Definition lift {W A} (o : outcome A) : M W A := fun st => (o, st).

(** [module.fail_json(msg=...)] *)
Definition fail_json {W A} (msg : string) : M W A := lift (FailJson msg).

Declare Scope py_scope.
Delimit Scope py_scope with py.
Notation "x <- m ;; k" := (bind m (fun x => k))
  (at level 100, m at next level, right associativity) : py_scope.
Notation "m ;;; k" := (bind m (fun _ => k))
  (at level 100, right associativity) : py_scope.

(** [format(v)] inside an f-string *)
Definition format_value {W} (rt : Runtime W) (v : value) : string :=
  match v with
  | VStr s => s
  | VInt n => str_int n
  | VBool true => "True"
  | VBool false => "False"
  | VNone => "None"
  | _ => py_repr rt v
  end.

(* ===================================================================== *)
(** ** plugins/module_utils/rest_api.py *)
(* ===================================================================== *)

Module RestApi.

Record ApiResponse : Type := {
  rc : Z;
  stdout : string;
  stderr : string
}.

(** [ApiResponse.status_code] *)
Definition status_code (r : ApiResponse) : Z :=
  if rc r =? 0 then 200
  else if rc r =? 22 then
    if contains "404" (stderr r) then 404
    else if contains "401" (stderr r) then 401
    else if contains "403" (stderr r) then 403
    else if contains "409" (stderr r) then 409
    else if contains "500" (stderr r) then 500
    else 400
  else 500.

(** [ApiResponse.json]: the [except] clause catches [JSONDecodeError] and
    [ValueError] only; any other exception of [json.loads] goes through. *)
Definition json {W} (rt : Runtime W) (r : ApiResponse) : outcome value :=
  match json_loads rt (stdout r) with
  | Loaded v => Ok v
  | DecodeError => Ok (VDict [])
  | Escaped e => Raise e
  end.

(** [ApiResponse.text] *)
Definition text (r : ApiResponse) : string :=
  if negb (stdout r =? "")%string then stdout r else stderr r.

Record RestApiClient : Type := {
  api_url : string;
  api_key : string;
  headers : list (string * string)
}.

(** [RestApiClient.__init__]; [api_url] and [api_key] may be [None]. *)
Definition init {W} (url key : option string) : M W RestApiClient :=
  let url' := if opt_str_truthy url
              then match url with Some u => u | None => "" end
              else "https://localhost/api/v2.0" in
  if negb (opt_str_truthy key) then
    fail_json "api_key is required for REST API access"
  else
    let key' := match key with Some k => k | None => "" end in
    ret {| api_url := url';
           api_key := key';
           headers := [("Authorization", "Bearer " ++ key');
                       ("Content-Type", "application/json")] |}.

Definition body_truthy (b : body) : bool :=
  match b with
  | BodyDict d => dict_truthy d
  | BodyText s => negb (s =? "")%string
  end.

(** The curl command line [call] builds. *)
Definition command {W} (rt : Runtime W) (c : RestApiClient)
    (url method : string) (data : option body) (timeout : Z) : list string :=
  let cmd := ["curl"; "-s"; "-k"; "-X"; method] in
  let cmd :=
    (cmd ++ flat_map (fun kv => ["-H"; (fst kv ++ ": " ++ snd kv)%string]) (headers c))%list in
  let cmd :=
    match data with
    | Some b =>
        if body_truthy b && str_in method ["POST"; "PUT"; "PATCH"] then
          (cmd ++ ["-d"; match b with
                         | BodyDict d => json_dumps rt (VDict d)
                         | BodyText s => s
                         end])%list
        else cmd
    | None => cmd
    end in
  let cmd := (cmd ++ ["--connect-timeout"; str_int timeout])%list in
  let url :=
    if startswith "/" url then rstrip "/" (api_url c) ++ url
    else if negb (startswith "http" url) then
      rstrip "/" (api_url c) ++ "/" ++ lstrip "/" url
    else url in
  (cmd ++ [url])%list.

(** [RestApiClient.call] *)
Definition call {W} (rt : Runtime W) (c : RestApiClient)
    (url method : string) (data : option body) (timeout : Z) : M W ApiResponse :=
  fun st =>
    let '(rc, out, err, w) := run_command rt (command rt c url method data timeout) (world st) in
    (Ok {| rc := rc; stdout := out; stderr := err |},
     {| world := w; log := (log st ++ [EvCall url method data])%list |}).

End RestApi.

Import RestApi.

(* ===================================================================== *)
(** ** plugins/modules/truenas_incus_instance.py *)
(* ===================================================================== *)

Module IncusInstance.

Local Open Scope py_scope.

(** The [choices] of the [state] and [type] parameters. *)
Inductive DesiredState : Type := present | absent | started | stopped | restarted.
Inductive InstanceType : Type := CONTAINER | VM.

Definition type_str (t : InstanceType) : string :=
  match t with CONTAINER => "CONTAINER" | VM => "VM" end.

(** [module.params]: AnsibleModule puts every declared parameter in the
    dict, with [None] for an optional one that was not supplied. *)
Record Params : Type := {
  p_name : string;
  p_state : DesiredState;
  p_type : InstanceType;
  p_source : option dict;
  p_config : option dict;
  p_devices : option dict;
  p_wait_for_ipv4 : bool;
  p_timeout : Z;
  p_api_url : option string;
  p_api_key : option string
}.

Record AnsibleModule : Type := {
  params : Params;
  check_mode : bool
}.

(** The value a dict-typed parameter has in [module.params]. *)
Definition param_value (o : option dict) : value :=
  match o with Some d => VDict d | None => VNone end.

(** The [result] dict that [module.exit_json] reports. *)
Record Result : Type := {
  changed : bool;
  instance : value
}.

(** [x or {}] *)
Definition or_empty (v : value) : value :=
  if truthy v then v else VDict [].

Definition obind {A B} (o : outcome A) (k : A -> outcome B) : outcome B :=
  match o with
  | Ok a => k a
  | FailJson msg => FailJson msg
  | Raise e => Raise e
  | OutOfFuel => OutOfFuel
  end.

(** The [for] loop of [get_instance]. *)
Fixpoint scan (instances : list value) (name : string) : outcome value :=
  match instances with
  | [] => Ok VNone
  | instance :: rest =>
      obind (py_get instance "name") (fun n =>
        if value_eq_str n name then Ok instance else scan rest name)
  end.

Section WithRuntime.

Context {W : Type} (rt : Runtime W).

Definition get_instance (api_client : RestApiClient) (name : string) : M W value :=
  response <- call rt api_client "/virt/instance" "GET" None 60 ;;
  if status_code response =? 200 then
    lift (obind (json rt response) (fun instances =>
          obind (py_iter instances) (fun elements => scan elements name)))
  else ret VNone.

(** The payload [create_instance] posts. *)
Definition create_payload (p : Params) : dict :=
  ([("name", VStr (p_name p)); ("type", VStr (type_str (p_type p)))]
   ++ (if opt_dict_truthy (p_source p) then [("source", param_value (p_source p))] else [])
   ++ (if opt_dict_truthy (p_config p) then [("config", param_value (p_config p))] else [])
   ++ (if opt_dict_truthy (p_devices p) then [("devices", param_value (p_devices p))] else []))%list.

Definition create_instance (module : AnsibleModule) (api_client : RestApiClient)
    : M W (bool * value) :=
  let payload := create_payload (params module) in
  response <- call rt api_client "/virt/instance" "POST" (Some (BodyDict payload)) 60 ;;
  if int_in (status_code response) [200; 201] then
    created <- lift (json rt response) ;;
    ret (true, created)
  else
    fail_json ("Failed to create instance: " ++ text response).

Definition start_instance (module : AnsibleModule) (api_client : RestApiClient)
    (instance_id : value) : M W bool :=
  response <- call rt api_client
                ("/virt/instance/" ++ format_value rt instance_id ++ "/start") "POST" None 60 ;;
  if int_in (status_code response) [200; 202; 409] then ret true
  else fail_json ("Failed to start instance: " ++ text response).

Definition stop_instance (module : AnsibleModule) (api_client : RestApiClient)
    (instance_id : value) : M W bool :=
  response <- call rt api_client
                ("/virt/instance/" ++ format_value rt instance_id ++ "/stop") "POST" None 60 ;;
  if int_in (status_code response) [200; 202; 409] then ret true
  else fail_json ("Failed to stop instance: " ++ text response).

Definition restart_instance (module : AnsibleModule) (api_client : RestApiClient)
    (instance_id : value) : M W bool :=
  response <- call rt api_client
                ("/virt/instance/" ++ format_value rt instance_id ++ "/restart") "POST" None 60 ;;
  if int_in (status_code response) [200; 202] then ret true
  else fail_json ("Failed to restart instance: " ++ text response).

Definition delete_instance (module : AnsibleModule) (api_client : RestApiClient)
    (instance_id : value) : M W bool :=
  stop_instance module api_client instance_id ;;;
  response <- call rt api_client
                ("/virt/instance/" ++ format_value rt instance_id) "DELETE" None 60 ;;
  if int_in (status_code response) [200; 204] then ret true
  else fail_json ("Failed to delete instance: " ++ text response).

(** [time.time()] *)
Definition now : M W Q :=
  fun st =>
    let '(t, w) := time_time rt (world st) in
    (Ok t, {| world := w; log := log st |}).

(** [time.sleep(secs)] *)
Definition sleep (secs : Z) : M W unit :=
  fun st =>
    (Ok tt, {| world := time_sleep rt secs (world st);
               log := (log st ++ [EvSleep secs])%list |}).

(** [a < b] on clock readings *)
Definition Qltb (a b : Q) : bool := negb (Qle_bool b a).

(** The [while] loop of [wait_for_state]; [fuel] bounds its iterations. *)
Fixpoint wait_loop (fuel : nat) (api_client : RestApiClient) (name desired_state : string)
    (timeout : Z) (start_time : Q) : M W bool :=
  match fuel with
  | O => lift OutOfFuel
  | S fuel' =>
      t <- now ;;
      if Qltb (t - start_time) (inject_Z timeout) then
        instance <- get_instance api_client name ;;
        reached <- (if truthy instance then
                      status <- lift (py_get instance "status") ;;
                      ret (value_eq_str status desired_state)
                    else ret false) ;;
        if reached then ret true
        else
          sleep 2 ;;;
          wait_loop fuel' api_client name desired_state timeout start_time
      else ret false
  end.

Definition wait_for_state (fuel : nat) (api_client : RestApiClient)
    (name desired_state : string) (timeout : Z) : M W bool :=
  start_time <- now ;;
  wait_loop fuel api_client name desired_state timeout start_time.

(** The end of [main]: [changed] is stored in [result], which
    [module.exit_json] reports. *)
Definition exit_json (c : bool) (i : value) : M W Result :=
  ret {| changed := c; instance := i |}.

Definition main (fuel : nat) (module : AnsibleModule) : M W Result :=
  let p := params module in
  api_client <- RestApi.init (p_api_url p) (p_api_key p) ;;
  let name := p_name p in
  instance <- get_instance api_client name ;;
  match p_state p with
  | present =>
      if negb (truthy instance) then
        if negb (check_mode module) then
          created <- create_instance module api_client ;;
          let instance := snd created in
          autostart <- (if truthy instance then
                          v <- lift (py_get (param_value (p_config p)) "boot.autostart") ;;
                          ret (value_eq_str v "true")
                        else ret false) ;;
          (if autostart then
             instance_id <- lift (subscript instance "id") ;;
             start_instance module api_client instance_id ;;;
             ret tt
           else ret tt) ;;;
          exit_json (fst created) (or_empty instance)
        else exit_json true (or_empty instance)
      else exit_json false (or_empty instance)
  | absent =>
      if truthy instance then
        if negb (check_mode module) then
          instance_id <- lift (subscript instance "id") ;;
          c <- delete_instance module api_client instance_id ;;
          exit_json c (VDict [])
        else exit_json true (VDict [])
      else exit_json false (VDict [])
  | started =>
      if truthy instance then
        status <- lift (py_get instance "status") ;;
        if negb (value_eq_str status "Running") then
          if negb (check_mode module) then
            instance_id <- lift (subscript instance "id") ;;
            c <- start_instance module api_client instance_id ;;
            wait_for_state fuel api_client name "Running" (p_timeout p) ;;;
            exit_json c instance
          else exit_json true instance
        else exit_json false instance
      else fail_json ("Instance " ++ name ++ " does not exist")
  | stopped =>
      if truthy instance then
        status <- lift (py_get instance "status") ;;
        if negb (value_eq_str status "Stopped") then
          if negb (check_mode module) then
            instance_id <- lift (subscript instance "id") ;;
            c <- stop_instance module api_client instance_id ;;
            wait_for_state fuel api_client name "Stopped" (p_timeout p) ;;;
            exit_json c instance
          else exit_json true instance
        else exit_json false instance
      else fail_json ("Instance " ++ name ++ " does not exist")
  | restarted =>
      if truthy instance then
        if negb (check_mode module) then
          instance_id <- lift (subscript instance "id") ;;
          c <- restart_instance module api_client instance_id ;;
          wait_for_state fuel api_client name "Running" (p_timeout p) ;;;
          exit_json c instance
        else exit_json true instance
      else fail_json ("Instance " ++ name ++ " does not exist")
  end.

End WithRuntime.

End IncusInstance.

Import IncusInstance.

(* ===================================================================== *)
(** ** Vocabulary of the statements *)
(* ===================================================================== *)

Module Spec.

(** The read-only call of [get_instance]. *)
Definition lookup_call : event := EvCall "/virt/instance" "GET" None.

(** An element of the instance collection that is a record. *)
Definition is_record (v : value) : bool :=
  match v with VDict _ => true | _ => false end.

(** A record whose name field equals the query. *)
Definition has_name (name : string) (v : value) : bool :=
  match v with
  | VDict d => value_eq_str (dict_get d "name") name
  | _ => false
  end.

(** A record whose status field equals the string. *)
Definition has_status (status : string) (v : value) : bool :=
  match v with
  | VDict d => value_eq_str (dict_get d "status") status
  | _ => false
  end.

(** The transition table of the reconciler, for a lookup result that lets
    the run finish: does the branch mutate? *)
Definition would_mutate (s : DesiredState) (found : value) : bool :=
  match s with
  | present => negb (truthy found)
  | absent => truthy found
  | started => negb (has_status "Running" found)
  | stopped => negb (has_status "Stopped" found)
  | restarted => true
  end.

(** The states whose action needs an existing instance. *)
Definition needs_instance (s : DesiredState) : bool :=
  match s with
  | started | stopped | restarted => true
  | present | absent => false
  end.

(** The status each of these states polls for. *)
Definition target_status (s : DesiredState) : string :=
  match s with
  | stopped => "Stopped"
  | _ => "Running"
  end.

(** The lifecycle operation each of these states invokes. *)
Definition action {W} (rt : Runtime W) (s : DesiredState)
    (module : AnsibleModule) (c : RestApiClient) (instance_id : value) : M W bool :=
  match s with
  | stopped => stop_instance rt module c instance_id
  | restarted => restart_instance rt module c instance_id
  | _ => start_instance rt module c instance_id
  end.

(** One poll that misses, [k] times over: a lookup, then a sleep of 2. *)
Fixpoint missed_polls (k : nat) : list event :=
  match k with
  | O => []
  | S k' => lookup_call :: EvSleep 2 :: missed_polls k'
  end.

(** A clock the runtime respects: a reading lies between the clock before
    and after it, a command never turns the clock back, and a sleep of [d]
    seconds advances it by [d] at least. *)
Definition clock_sound {W} (rt : Runtime W) (clock : W -> Q) : Prop :=
  (forall w, (clock w <= fst (time_time rt w))%Q /\
             (fst (time_time rt w) <= clock (snd (time_time rt w)))%Q) /\
  (forall cmd w, (clock w <= clock (snd (run_command rt cmd w)))%Q) /\
  (forall d w, (clock w + inject_Z d <= clock (time_sleep rt d w))%Q).

(** An operation made of one call: it succeeds on an accepted status and
    is fatal, with the response text in the message, on any other. *)
Definition classifies {W} (rt : Runtime W) (op : M W bool) (url method : string)
    (c : RestApiClient) (accepted : list Z) (prefix : string) (st : State W) : Prop :=
  exists resp st',
    call rt c url method None 60 st = (Ok resp, st') /\
    log st' = (log st ++ [EvCall url method None])%list /\
    (In (status_code resp) accepted -> op st = (Ok true, st')) /\
    (~ In (status_code resp) accepted -> op st = (FailJson (prefix ++ text resp), st')).

(** The state once [time.time()] has been read, and the reading. *)
Definition clock_read {W} (rt : Runtime W) (st : State W) : State W :=
  {| world := snd (time_time rt (world st)); log := log st |}.

Definition reading {W} (rt : Runtime W) (st : State W) : Q :=
  fst (time_time rt (world st)).

(** The state once [time.sleep(2)] has returned. *)
Definition slept {W} (rt : Runtime W) (st : State W) : State W :=
  {| world := time_sleep rt 2 (world st); log := (log st ++ [EvSleep 2])%list |}.

(** The poller in the words of its specification, from the state in which
    the loop tests the clock: past the timeout it returns false; within
    it, it fetches the instance again and returns true at once if the
    status is the target, sleeps 2 seconds and goes round again if not,
    and lets an exception of the lookup through. *)
Inductive awaits {W} (rt : Runtime W) (c : RestApiClient) (name target : string)
    (timeout : Z) (start_time : Q) : State W -> outcome bool -> State W -> Prop :=
| awaits_timeout (st : State W) :
    (inject_Z timeout <= reading rt st - start_time)%Q ->
    awaits rt c name target timeout start_time st (Ok false) (clock_read rt st)
| awaits_reached (st st1 : State W) (found : value) :
    (reading rt st - start_time < inject_Z timeout)%Q ->
    get_instance rt c name (clock_read rt st) = (Ok found, st1) ->
    has_status target found = true ->
    awaits rt c name target timeout start_time st (Ok true) st1
| awaits_retry (st st1 st' : State W) (found : value) (out : outcome bool) :
    (reading rt st - start_time < inject_Z timeout)%Q ->
    get_instance rt c name (clock_read rt st) = (Ok found, st1) ->
    has_status target found = false ->
    awaits rt c name target timeout start_time (slept rt st1) out st' ->
    awaits rt c name target timeout start_time st out st'
| awaits_raised (st st1 : State W) (e : exn) :
    (reading rt st - start_time < inject_Z timeout)%Q ->
    get_instance rt c name (clock_read rt st) = (Raise e, st1) ->
    awaits rt c name target timeout start_time st (Raise e) st1.

(** The client [main] builds from the parameters when a key is given. *)
Definition client_of (p : Params) : RestApiClient :=
  let key := match p_api_key p with Some k => k | None => "" end in
  {| api_url := if opt_str_truthy (p_api_url p)
                then match p_api_url p with Some u => u | None => "" end
                else "https://localhost/api/v2.0";
     api_key := key;
     headers := [("Authorization", "Bearer " ++ key);
                 ("Content-Type", "application/json")] |}.

(** The call [create_instance] issues. *)
Definition create_call (p : Params) : event :=
  EvCall "/virt/instance" "POST" (Some (BodyDict (create_payload p))).

End Spec.

Import Spec.

(* ===================================================================== *)
(** ** A scripted back end, as the unit tests mock it *)
(* ===================================================================== *)

Module Mock.

(** The world of a test: the curl results still to be served, in order,
    and a clock that only sleeping advances. *)
Record World : Type := {
  script : list (Z * string * string);
  clock : Q
}.

Definition mock_run_command (cmd : list string) (w : World)
    : (Z * string * string) * World :=
  match script w with
  | [] => ((7, "", "curl: (7) Failed to connect"), w)
  | r :: rest => (r, {| script := rest; clock := clock w |})
  end.

Definition mock_time (w : World) : Q * World := (clock w, w).

Definition mock_sleep (secs : Z) (w : World) : World :=
  {| script := script w; clock := (clock w + inject_Z secs)%Q |}.

Definition quoted (s : string) : string :=
  String "034"%char (s ++ String "034"%char EmptyString).

(** JSON text of a value whose strings need no escape. *)
Fixpoint mock_dumps (v : value) : string :=
  match v with
  | VNone => "null"
  | VBool true => "true"
  | VBool false => "false"
  | VInt n => str_int n
  | VStr s => quoted s
  | VList l =>
      "[" ++ (fix items (l : list value) : string :=
                match l with
                | [] => ""
                | x :: r =>
                    mock_dumps x ++ match r with [] => "" | _ :: _ => ", " ++ items r end
                end) l ++ "]"
  | VDict d =>
      "{" ++ (fix items (d : list (string * value)) : string :=
                match d with
                | [] => ""
                | (k, x) :: r =>
                    quoted k ++ ": " ++ mock_dumps x
                    ++ match r with [] => "" | _ :: _ => ", " ++ items r end
                end) d ++ "}"
  end.

Definition matchbox (status : string) : value :=
  VDict [("id", VStr "123"); ("name", VStr "matchbox");
         ("status", VStr status); ("type", VStr "CONTAINER")].

Definition other_container : value :=
  VDict [("id", VStr "456"); ("name", VStr "other-container");
         ("status", VStr "Stopped")].

(** The bodies the scripted back end serves; any other text is not JSON. *)
Definition bodies : list value :=
  [ VList [];
    VList [other_container];
    VList [matchbox "Running"; other_container];
    VList [matchbox "Stopped"];
    VList [matchbox "Starting"];
    VList [matchbox "Running"];
    matchbox "Stopped";
    matchbox "Running" ].

Definition mock_loads (s : string) : loaded :=
  match find (fun v => (mock_dumps v =? s)%string) bodies with
  | Some v => Loaded v
  | None => DecodeError
  end.

Definition rt : Runtime World := {|
  run_command := mock_run_command;
  time_time := mock_time;
  time_sleep := mock_sleep;
  json_loads := mock_loads;
  json_dumps := mock_dumps;
  py_repr := mock_dumps
|}.

(** A curl result: the round trip succeeded and carried this body. *)
Definition served (v : value) : Z * string * string := (0, mock_dumps v, "").

Definition boot (responses : list (Z * string * string)) : State World :=
  {| world := {| script := responses; clock := 0 |}; log := [] |}.

Definition task (s : DesiredState) (cfg : option dict) (check : bool) : AnsibleModule :=
  {| params := {| p_name := "matchbox";
                  p_state := s;
                  p_type := CONTAINER;
                  p_source := None;
                  p_config := cfg;
                  p_devices := None;
                  p_wait_for_ipv4 := false;
                  p_timeout := 3;
                  p_api_url := Some "https://test.local/api/v2.0";
                  p_api_key := Some "test-key" |};
     check_mode := check |}.

Definition client : RestApiClient :=
  {| api_url := "https://test.local/api/v2.0";
     api_key := "test-key";
     headers := [("Authorization", "Bearer test-key");
                 ("Content-Type", "application/json")] |}.

End Mock.

(* ===================================================================== *)
(** ** Further vocabulary: substrings, clients, call shapes *)
(* ===================================================================== *)

Module Notions.

(** [sub] occurs somewhere in [s]. *)
Definition occurs (sub s : string) : Prop :=
  exists a b, s = a ++ sub ++ b.

(** The same client pointed at another base URL. *)
Definition with_api_url (c : RestApiClient) (u : string) : RestApiClient :=
  {| api_url := u; api_key := api_key c; headers := headers c |}.

(** The same parameters with another value of [wait_for_ipv4]. *)
Definition set_wait_for_ipv4 (p : Params) (b : bool) : Params :=
  {| p_name := p_name p;
     p_state := p_state p;
     p_type := p_type p;
     p_source := p_source p;
     p_config := p_config p;
     p_devices := p_devices p;
     p_wait_for_ipv4 := b;
     p_timeout := p_timeout p;
     p_api_url := p_api_url p;
     p_api_key := p_api_key p |}.

(** A computation that never runs out of fuel. *)
Definition finishes {W A} (m : M W A) : Prop :=
  forall st, fst (m st) <> OutOfFuel.

(** The events of a poll: lookups and sleeps of 2 seconds. *)
Definition poll_event (ev : event) : Prop :=
  ev = lookup_call \/ ev = EvSleep 2.

(** The call of a lifecycle operation on the instance whose id prints as
    [id]; [verb] is the empty string for the DELETE. *)
Definition action_call (id verb method : string) : event :=
  EvCall ("/virt/instance/" ++ id ++ verb) method None.

(** What a run of [main] may issue after its lookup, by desired state. *)
Definition after_lookup (p : Params) (rest : list event) : Prop :=
  rest = [] \/
  match p_state p with
  | present =>
      rest = [create_call p] \/
      exists id, rest = [create_call p; action_call id "/start" "POST"]
  | absent =>
      exists id,
        rest = [action_call id "/stop" "POST"] \/
        rest = [action_call id "/stop" "POST"; action_call id "" "DELETE"]
  | started =>
      exists id polls,
        rest = action_call id "/start" "POST" :: polls /\ Forall poll_event polls
  | stopped =>
      exists id polls,
        rest = action_call id "/stop" "POST" :: polls /\ Forall poll_event polls
  | restarted =>
      exists id polls,
        rest = action_call id "/restart" "POST" :: polls /\ Forall poll_event polls
  end.

(** What a run of [main] may issue at all: nothing, or the lookup first. *)
Definition run_shape (p : Params) (evs : list event) : Prop :=
  evs = [] \/ exists rest, evs = lookup_call :: rest /\ after_lookup p rest.

End Notions.

Import Notions.

(** A scripted back end that also serves malformed collections. *)
Module Fixtures.

Definition nameless : value := VDict [("id", VStr "789"); ("status", VStr "Running")].

Definition no_id (status : string) : value :=
  VDict [("name", VStr "matchbox"); ("status", VStr status)].

Definition error_envelope : value := VDict [("message", VStr "not allowed")].

Definition bodies : list value :=
  (Mock.bodies ++
   [ VList [nameless; Mock.matchbox "Running"];
     VList [VStr "matchbox"; Mock.matchbox "Running"];
     VList [no_id "Stopped"];
     VList [no_id "Running"];
     error_envelope;
     VNone;
     VDict [] ])%list.

(** The number of [c] a text opens with. *)
Fixpoint opening (c : ascii) (s : string) : Z :=
  match s with
  | EmptyString => 0
  | String a s' => if Ascii.eqb a c then 1 + opening c s' else 0
  end.

(** A text that opens a hundred thousand lists, which [json.loads]
    gives up on with [RecursionError]. *)
Definition too_deep : string := Pos.iter (String "[") EmptyString 100000.

Definition loads (s : string) : loaded :=
  if 100000 <=? opening "[" s then Escaped RecursionError
  else match find (fun v => (Mock.mock_dumps v =? s)%string) bodies with
       | Some v => Loaded v
       | None => DecodeError
       end.

Definition rt : Runtime Mock.World := {|
  run_command := Mock.mock_run_command;
  time_time := Mock.mock_time;
  time_sleep := Mock.mock_sleep;
  json_loads := loads;
  json_dumps := Mock.mock_dumps;
  py_repr := Mock.mock_dumps
|}.

End Fixtures.

(* ===================================================================== *)
(** ** The curl process *)
(* ===================================================================== *)

(** curl, for the options the command line of [call] can hold, as curl's
    manual has them. A transfer that gets an HTTP reply ends with exit
    code 0 and the body on stdout, whatever the status; only with [-f] or
    [--fail] does a status of 400 or more end it with exit code 22 and no
    body. A transfer that gets no reply ends with an exit code of its own
    (6 host not resolved, 7 connection refused, 28 timed out, 35 TLS
    handshake failed). With [-s] no message goes to stderr unless [-S]
    asks for it. *)
Module Curl.

Inductive exchange : Type :=
| Answered (status : Z) (body : string)
| NoReply (exit_code : Z).

Record World : Type := {
  exchanges : list exchange;
  clock : Q
}.

Definition fail_flag (cmd : list string) : bool :=
  str_in "-f" cmd || str_in "--fail" cmd.

Definition quiet (cmd : list string) : bool :=
  (str_in "-s" cmd || str_in "--silent" cmd)
  && negb (str_in "-S" cmd || str_in "--show-error" cmd).

Definition message (cmd : list string) (exit_code : Z) (what : string) : string :=
  if quiet cmd then "" else "curl: (" ++ str_int exit_code ++ ") " ++ what.

Definition curl_run_command (cmd : list string) (w : World)
    : (Z * string * string) * World :=
  match exchanges w with
  | [] => ((7, "", message cmd 7 "Failed to connect"), w)
  | Answered status body :: rest =>
      (if fail_flag cmd && (400 <=? status)
       then (22, "", message cmd 22
                       ("The requested URL returned error: " ++ str_int status))
       else (0, body, ""),
       {| exchanges := rest; clock := clock w |})
  | NoReply exit_code :: rest =>
      ((exit_code, "", message cmd exit_code "transfer failed"),
       {| exchanges := rest; clock := clock w |})
  end.

Definition rt : Runtime World := {|
  run_command := curl_run_command;
  time_time := fun w => (clock w, w);
  time_sleep := fun secs w =>
    {| exchanges := exchanges w; clock := (clock w + inject_Z secs)%Q |};
  json_loads := Fixtures.loads;
  json_dumps := Mock.mock_dumps;
  py_repr := Mock.mock_dumps
|}.

Definition boot (served : list exchange) : State World :=
  {| world := {| exchanges := served; clock := 0 |}; log := [] |}.

End Curl.

(* ===================================================================== *)
(** ** The transport *)
(* ===================================================================== *)

Local Open Scope py_scope.

Ltac run_curl :=
  unfold call;
  match goal with
  | |- context [run_command ?rt ?cmd ?w] =>
      let rc := fresh "rc" in
      let out := fresh "out" in
      let err := fresh "err" in
      let w' := fresh "w" in
      destruct (run_command rt cmd w) as [[[rc out] err] w'] eqn:?
  end.

Lemma int_in_In (x : Z) (l : list Z) : int_in x l = true <-> In x l.
Proof.
  unfold int_in. rewrite existsb_exists. split.
  - intros [y [Hy Heq]]. apply Z.eqb_eq in Heq. now subst.
  - intros H. exists x. split; [assumption | apply Z.eqb_refl].
Qed.

Lemma int_in_not_In (x : Z) (l : list Z) : int_in x l = false <-> ~ In x l.
Proof.
  rewrite <- int_in_In. destruct (int_in x l); split; congruence.
Qed.

Lemma status_code_values (r : ApiResponse) :
  In (status_code r) [200; 400; 401; 403; 404; 409; 500].
Proof.
  unfold status_code.
  repeat match goal with
         | |- context [if ?b then _ else _] => destruct b
         end; simpl; auto 10.
Qed.

Lemma status_code_other_exit (r : ApiResponse) :
  rc r <> 0 -> rc r <> 22 -> status_code r = 500.
Proof.
  intros H0 H22. unfold status_code.
  apply Z.eqb_neq in H0, H22. now rewrite H0, H22.
Qed.

Section Transport.

Context {W : Type} (rt : Runtime W).

Lemma call_returns (c : RestApiClient) (url method : string) (data : option body)
    (timeout : Z) (st : State W) :
  exists resp st',
    call rt c url method data timeout st = (Ok resp, st') /\
    (rc resp, stdout resp, stderr resp) =
      fst (run_command rt (command rt c url method data timeout) (world st)) /\
    world st' = snd (run_command rt (command rt c url method data timeout) (world st)) /\
    log st' = (log st ++ [EvCall url method data])%list.
Proof.
  run_curl. do 2 eexists. repeat split; reflexivity.
Qed.

End Transport.

(** The command line of the lookup, as the scripted client builds it. *)
Example lookup_command_line :
  command Mock.rt Mock.client "/virt/instance" "GET" None 60 =
    ["curl"; "-s"; "-k"; "-X"; "GET";
     "-H"; "Authorization: Bearer test-key";
     "-H"; "Content-Type: application/json";
     "--connect-timeout"; "60";
     "https://test.local/api/v2.0/virt/instance"].
Proof. reflexivity. Qed.

(* ===================================================================== *)
(** ** Instance lookup *)
(* ===================================================================== *)

Lemma has_name_record (name : string) (v : value) :
  has_name name v = true -> is_record v = true /\ truthy v = true.
Proof.
  destruct v as [| | | | |d]; simpl; try discriminate.
  destruct d as [|kv d]; [discriminate | auto].
Qed.

Lemma scan_step_match (name : string) (x : value) (rest : list value) :
  has_name name x = true -> scan (x :: rest) name = Ok x.
Proof.
  destruct x as [| | | | |d]; simpl; try discriminate.
  intros ->. reflexivity.
Qed.

Lemma scan_step_other (name : string) (y : value) (rest : list value) :
  is_record y = true -> has_name name y = false ->
  scan (y :: rest) name = scan rest name.
Proof.
  destruct y as [| | | | |d]; simpl; try discriminate.
  intros _ ->. reflexivity.
Qed.

Lemma scan_first_match (name : string) (l1 : list value) (x : value) (l2 : list value) :
  Forall (fun y => is_record y = true /\ has_name name y = false) l1 ->
  has_name name x = true ->
  scan (l1 ++ x :: l2) name = Ok x.
Proof.
  intros Hl1 Hx. induction Hl1 as [|y l1 [Hrec Hno] _ IH].
  - now apply scan_step_match.
  - change ((y :: l1) ++ x :: l2)%list with (y :: (l1 ++ x :: l2))%list.
    rewrite scan_step_other by assumption. exact IH.
Qed.

Lemma scan_no_match (name : string) (l : list value) :
  Forall (fun y => is_record y = true /\ has_name name y = false) l ->
  scan l name = Ok VNone.
Proof.
  induction 1 as [|y l [Hrec Hno] _ IH]; [reflexivity |].
  rewrite scan_step_other by assumption. exact IH.
Qed.

(** Whatever the collection holds, the loop ends in one of three ways:
    nothing found, a record of that name, or an exception. *)
Lemma scan_outcome (name : string) (l : list value) :
  scan l name = Ok VNone \/
  (exists x, scan l name = Ok x /\ In x l /\ has_name name x = true) \/
  (exists e, scan l name = Raise e).
Proof.
  induction l as [|y l IH]; [now left |].
  destruct y as [| | | | |d];
    try (right; right; exists AttributeError; reflexivity).
  destruct (has_name name (VDict d)) eqn:Hd.
  - right; left. exists (VDict d).
    rewrite scan_step_match by assumption. simpl; auto.
  - rewrite scan_step_other by auto.
    destruct IH as [IH | [(x & Hx & Hin & Hn) | IH]]; auto.
    right; left. exists x. simpl; auto.
Qed.

Section Lookup.

Context {W : Type} (rt : Runtime W).

Lemma get_instance_unfold (c : RestApiClient) (name : string) (st : State W) :
  exists resp st',
    call rt c "/virt/instance" "GET" None 60 st = (Ok resp, st') /\
    world st' = snd (run_command rt (command rt c "/virt/instance" "GET" None 60) (world st)) /\
    log st' = (log st ++ [lookup_call])%list /\
    get_instance rt c name st =
      (if status_code resp =? 200
       then obind (json rt resp) (fun instances =>
              obind (py_iter instances) (fun elements => scan elements name))
       else Ok VNone, st').
Proof.
  destruct (call_returns rt c "/virt/instance" "GET" None 60 st)
    as (resp & st' & Hcall & _ & Hworld & Hlog).
  exists resp, st'. repeat split; try assumption.
  unfold get_instance, bind. rewrite Hcall.
  destruct (status_code resp =? 200); reflexivity.
Qed.

(** The lookup issues exactly its one GET, and ends with nothing found,
    with a record of the queried name, or with an exception. *)
Lemma get_instance_outcome (c : RestApiClient) (name : string) (st : State W) :
  exists out st',
    get_instance rt c name st = (out, st') /\
    world st' = snd (run_command rt (command rt c "/virt/instance" "GET" None 60) (world st)) /\
    log st' = (log st ++ [lookup_call])%list /\
    (out = Ok VNone \/
     (exists x, out = Ok x /\ has_name name x = true) \/
     (exists e, out = Raise e)).
Proof.
  destruct (get_instance_unfold c name st) as (resp & st' & _ & Hworld & Hlog & Hget).
  eexists; exists st'. split; [exact Hget |]. split; [exact Hworld |].
  split; [exact Hlog |].
  destruct (status_code resp =? 200); [| now left].
  unfold json. destruct (json_loads rt (stdout resp)) as [body | | e];
    cbn [obind]; [| now left | right; right; eauto].
  destruct (py_iter body) as [l | | e |] eqn:Hiter; simpl.
  - destruct (scan_outcome name l) as [H | [(x & Hx & _ & Hn) | H]]; eauto.
  - destruct body; discriminate.
  - right; right; eauto.
  - destruct body; discriminate.
Qed.

(** C5: the lookup returns the first record of the collection whose name
    equals the query when the list call answers 200, also when later
    records share the name; it returns absent when the call does not
    answer 200 and when no record matches, the same value in both cases. *)
Theorem get_instance_first_match_or_absent (c : RestApiClient) (name : string)
    (st : State W) :
  exists resp st',
    call rt c "/virt/instance" "GET" None 60 st = (Ok resp, st') /\
    (status_code resp <> 200 -> get_instance rt c name st = (Ok VNone, st')) /\
    (status_code resp = 200 ->
     forall l1 x l2,
       json rt resp = Ok (VList (l1 ++ x :: l2)) ->
       Forall (fun y => is_record y = true /\ has_name name y = false) l1 ->
       has_name name x = true ->
       get_instance rt c name st = (Ok x, st')) /\
    (status_code resp = 200 ->
     forall l,
       json rt resp = Ok (VList l) ->
       Forall (fun y => is_record y = true /\ has_name name y = false) l ->
       get_instance rt c name st = (Ok VNone, st')).
Proof.
  destruct (get_instance_unfold c name st) as (resp & st' & Hcall & _ & _ & Hget).
  exists resp, st'. split; [exact Hcall |].
  split; [| split].
  - intros Hne. apply Z.eqb_neq in Hne. now rewrite Hget, Hne.
  - intros H200 l1 x l2 Hjson Hl1 Hx.
    rewrite Hget, H200, Hjson. simpl.
    now rewrite scan_first_match.
  - intros H200 l Hjson Hl.
    rewrite Hget, H200, Hjson. simpl.
    now rewrite scan_no_match.
Qed.

End Lookup.

(** The first of two records named alike is the one returned. *)
Example get_instance_duplicate_names :
  fst (get_instance Mock.rt Mock.client "matchbox"
         (Mock.boot [Mock.served (VList [Mock.matchbox "Running"; Mock.other_container])]))
  = Ok (Mock.matchbox "Running")
  /\
  scan [Mock.other_container; Mock.matchbox "Stopped"; Mock.matchbox "Running"] "matchbox"
  = Ok (Mock.matchbox "Stopped").
Proof. split; vm_compute; reflexivity. Qed.

(* ===================================================================== *)
(** ** Parsing the body *)
(* ===================================================================== *)

Section Parsing.

Context {W : Type} (rt : Runtime W).

(** C10, as the code has it: [json] returns what [json.loads] returned,
    and the empty dict, without raising, where [json.loads] raises
    [JSONDecodeError] or [ValueError], as on an empty or malformed body;
    any other exception of [json.loads] escapes it. So a lookup whose
    200 response has a body that fails to decode finds nothing, a lookup
    whose 200 body makes [json.loads] raise something else raises that,
    and a lookup whose response is not a 200 never parses the body. *)
Theorem json_catches_decode_errors_only (resp : ApiResponse) :
  (forall v, json_loads rt (stdout resp) = Loaded v -> json rt resp = Ok v) /\
  (json_loads rt (stdout resp) = DecodeError -> json rt resp = Ok (VDict [])) /\
  (forall e, json_loads rt (stdout resp) = Escaped e -> json rt resp = Raise e) /\
  (forall c name st st',
     call rt c "/virt/instance" "GET" None 60 st = (Ok resp, st') ->
     (status_code resp = 200 ->
      json_loads rt (stdout resp) = DecodeError ->
      get_instance rt c name st = (Ok VNone, st')) /\
     (status_code resp = 200 ->
      forall e, json_loads rt (stdout resp) = Escaped e ->
      get_instance rt c name st = (Raise e, st')) /\
     (status_code resp <> 200 ->
      get_instance rt c name st = (Ok VNone, st'))) /\
  (forall module c st st',
     call rt c "/virt/instance" "POST"
       (Some (BodyDict (create_payload (params module)))) 60 st = (Ok resp, st') ->
     In (status_code resp) [200; 201] ->
     (json_loads rt (stdout resp) = DecodeError ->
      create_instance rt module c st = (Ok (true, VDict []), st')) /\
     (forall e, json_loads rt (stdout resp) = Escaped e ->
      create_instance rt module c st = (Raise e, st'))).
Proof.
  split; [| split; [| split; [| split]]].
  - unfold json. intros v ->. reflexivity.
  - unfold json. intros ->. reflexivity.
  - unfold json. intros e ->. reflexivity.
  - intros c name st st' Hcall.
    destruct (get_instance_unfold rt c name st) as (resp' & st1 & Hcall' & _ & _ & Hget).
    rewrite Hcall in Hcall'. inversion Hcall'; subst resp' st1.
    rewrite Hget. split; [| split].
    + intros -> Hbad. unfold json. rewrite Hbad. reflexivity.
    + intros -> e Hbad. unfold json. rewrite Hbad. reflexivity.
    + intros Hne. apply Z.eqb_neq in Hne. now rewrite Hne.
  - intros module c st st' Hcall Hin. apply int_in_In in Hin.
    unfold create_instance, bind, lift, json. rewrite Hcall, Hin.
    split; [intros -> | intros e ->]; reflexivity.
Qed.

End Parsing.

(** C10 as stated fails: [json] is not total. On a body that opens a
    hundred thousand lists [json.loads] raises [RecursionError], which
    the [except] clause does not catch, and a lookup that gets this body
    with status 200 raises too. *)
Lemma json_raises_on_deep_nesting :
  json Fixtures.rt {| rc := 0; stdout := Fixtures.too_deep; stderr := "" |}
    = Raise RecursionError /\
  fst (get_instance Fixtures.rt Mock.client "matchbox"
         (Mock.boot [(0, Fixtures.too_deep, "")]))
    = Raise RecursionError.
Proof. split; vm_compute; reflexivity. Qed.

(* ===================================================================== *)
(** ** Lifecycle operations *)
(* ===================================================================== *)

Section Lifecycle.

Context {W : Type} (rt : Runtime W).

Lemma one_call_classifies (c : RestApiClient) (url method : string)
    (accepted : list Z) (prefix : string) (st : State W) :
  classifies rt
    (response <- call rt c url method None 60 ;;
     if int_in (status_code response) accepted then ret true
     else fail_json (prefix ++ text response))
    url method c accepted prefix st.
Proof.
  destruct (call_returns rt c url method None 60 st) as (resp & st' & Hcall & _ & _ & Hlog).
  exists resp, st'. split; [exact Hcall |]. split; [exact Hlog |].
  unfold bind. rewrite Hcall. split.
  - intros Hin. apply int_in_In in Hin. now rewrite Hin.
  - intros Hout. apply int_in_not_In in Hout. now rewrite Hout.
Qed.

Lemma classifies_outcome (op : M W bool) (url method : string) (c : RestApiClient)
    (accepted : list Z) (prefix : string) (st : State W) :
  classifies rt op url method c accepted prefix st ->
  exists out st',
    op st = (out, st') /\
    log st' = (log st ++ [EvCall url method None])%list /\
    (out = Ok true \/ exists msg, out = FailJson msg).
Proof.
  intros (resp & st' & _ & Hlog & Hin & Hout).
  destruct (in_dec Z.eq_dec (status_code resp) accepted) as [H | H].
  - exists (Ok true), st'. rewrite (Hin H). auto.
  - eexists; exists st'. rewrite (Hout H). eauto.
Qed.

Lemma start_instance_classifies (module : AnsibleModule) (c : RestApiClient)
    (instance_id : value) (st : State W) :
  classifies rt (start_instance rt module c instance_id)
    ("/virt/instance/" ++ format_value rt instance_id ++ "/start") "POST" c
    [200; 202; 409] "Failed to start instance: " st.
Proof. apply one_call_classifies. Qed.

Lemma stop_instance_classifies (module : AnsibleModule) (c : RestApiClient)
    (instance_id : value) (st : State W) :
  classifies rt (stop_instance rt module c instance_id)
    ("/virt/instance/" ++ format_value rt instance_id ++ "/stop") "POST" c
    [200; 202; 409] "Failed to stop instance: " st.
Proof. apply one_call_classifies. Qed.

Lemma restart_instance_classifies (module : AnsibleModule) (c : RestApiClient)
    (instance_id : value) (st : State W) :
  classifies rt (restart_instance rt module c instance_id)
    ("/virt/instance/" ++ format_value rt instance_id ++ "/restart") "POST" c
    [200; 202] "Failed to restart instance: " st.
Proof. apply one_call_classifies. Qed.



End Lifecycle.

(** A backend answering 409 to the stop and 200 to the DELETE. *)
Example delete_after_conflict :
  delete_instance Mock.rt (Mock.task absent None false) Mock.client (VStr "123")
    (Mock.boot [(22, "", "curl: (22) The requested URL returned error: 409"); (0, "", "")])
  = (Ok true,
     {| world := {| Mock.script := []; Mock.clock := 0 |};
        log := [EvCall "/virt/instance/123/stop" "POST" None;
                EvCall "/virt/instance/123" "DELETE" None] |}).
Proof. reflexivity. Qed.

(* ===================================================================== *)
(** ** The poller *)
(* ===================================================================== *)

Lemma Qltb_true (a b : Q) : Qltb a b = true <-> (a < b)%Q.
Proof.
  unfold Qltb. rewrite negb_true_iff, <- not_true_iff_false, Qle_bool_iff.
  split; [apply Qnot_le_lt | apply Qlt_not_le].
Qed.

Lemma Qltb_false (a b : Q) : Qltb a b = false <-> (b <= a)%Q.
Proof.
  unfold Qltb. rewrite negb_false_iff. apply Qle_bool_iff.
Qed.

Lemma missed_polls_snoc (k : nat) :
  (missed_polls k ++ [lookup_call; EvSleep 2])%list = missed_polls (S k).
Proof.
  induction k as [|k IH]; [reflexivity |].
  simpl. simpl in IH. now rewrite IH.
Qed.

Section Poller.

Context {W : Type} (rt : Runtime W).

Lemma now_reads (st : State W) : now rt st = (Ok (reading rt st), clock_read rt st).
Proof.
  unfold now, reading, clock_read. now destruct (time_time rt (world st)).
Qed.

(** One turn of the loop, with the test on the fetched instance spelled
    as [has_status]. *)
Lemma wait_loop_step (fuel : nat) (c : RestApiClient) (name desired : string)
    (timeout : Z) (start_time : Q) (st : State W) :
  wait_loop rt (S fuel) c name desired timeout start_time st =
    if Qltb (reading rt st - start_time) (inject_Z timeout) then
      match get_instance rt c name (clock_read rt st) with
      | (Ok found, st1) =>
          if has_status desired found then (Ok true, st1)
          else wait_loop rt fuel c name desired timeout start_time (slept rt st1)
      | (FailJson msg, st1) => (FailJson msg, st1)
      | (Raise e, st1) => (Raise e, st1)
      | (OutOfFuel, st1) => (OutOfFuel, st1)
      end
    else (Ok false, clock_read rt st).
Proof.
  cbn [wait_loop]. unfold bind at 1. rewrite now_reads.
  destruct (Qltb (reading rt st - start_time) (inject_Z timeout)); [| reflexivity].
  unfold bind at 1.
  destruct (get_instance_outcome rt c name (clock_read rt st))
    as (out & st1 & Hget & _ & _ & [-> | [(x & -> & Hx) | (e & ->)]]);
    rewrite Hget; try reflexivity.
  destruct (has_name_record _ _ Hx) as [Hrec Htruthy].
  destruct x as [| | | | |d]; try discriminate.
  unfold bind. rewrite Htruthy. simpl.
  destruct (value_eq_str (dict_get d "status") desired); reflexivity.
Qed.

(** What a finished poll leaves in the log: the lookups that missed, each
    followed by a sleep of 2 seconds, and, when it returns true, the
    lookup that saw the target status, with no sleep behind it. *)
Lemma wait_loop_log (fuel : nat) (c : RestApiClient) (name desired : string)
    (timeout : Z) (start_time : Q) (st : State W) (b : bool) (st' : State W) :
  wait_loop rt fuel c name desired timeout start_time st = (Ok b, st') ->
  exists k, (k <= fuel)%nat /\
    log st' = (log st ++ missed_polls k ++ (if b then [lookup_call] else []))%list.
Proof.
  revert st. induction fuel as [|fuel IH]; intros st Hrun; [discriminate |].
  rewrite wait_loop_step in Hrun.
  destruct (Qltb (reading rt st - start_time) (inject_Z timeout)).
  - destruct (get_instance_outcome rt c name (clock_read rt st))
      as (out & st1 & Hget & _ & Hlog & _).
    rewrite Hget in Hrun. destruct out as [found | | |]; try discriminate.
    destruct (has_status desired found).
    + inversion Hrun; subst. exists 0%nat. split; [lia |]. exact Hlog.
    + apply IH in Hrun. destruct Hrun as (k & Hk & Hrun).
      exists (S k). split; [lia |].
      rewrite Hrun. cbn [slept log]. rewrite Hlog. cbn [clock_read log].
      rewrite <- !app_assoc. reflexivity.
  - inversion Hrun; subst. exists 0%nat. split; [lia |].
    cbn. now rewrite app_nil_r.
Qed.

(* After a lookup and a sleep the budget of the next turn is met. *)
Ltac budget Hread Hrun Hsleep Hworld Hbudget st st1 :=
  let Hcmd := fresh "Hcmd" in
  destruct (Hread (world st)) as [? ?];
  match type of Hworld with
  | _ = snd (run_command _ ?cmd ?w) => pose proof (Hrun cmd w) as Hcmd
  end;
  rewrite <- Hworld in Hcmd;
  pose proof (Hsleep 2 (world st1));
  cbn [slept world clock_read] in *;
  match type of Hbudget with
  | context [Z.of_nat (S ?fuel)] =>
      replace (2 * Z.of_nat (S fuel))%Z with (2 * Z.of_nat fuel + 2)%Z in Hbudget by lia
  end;
  rewrite inject_Z_plus in Hbudget;
  unfold reading in *;
  lra.

(** With a sound clock every turn that does not return costs at least two
    seconds of the timeout, so the loop cannot use up its fuel. *)
Lemma wait_loop_terminates (clock : W -> Q) (c : RestApiClient) (name desired : string)
    (timeout : Z) (start_time : Q) :
  clock_sound rt clock ->
  forall (fuel : nat) (st : State W),
    (start_time + inject_Z timeout
       <= clock (world st) + inject_Z (2 * Z.of_nat fuel))%Q ->
    fst (wait_loop rt (S fuel) c name desired timeout start_time st) <> OutOfFuel.
Proof.
  intros (Hread & Hrun & Hsleep).
  induction fuel as [|fuel IH]; intros st Hbudget; rewrite wait_loop_step;
    destruct (Qltb (reading rt st - start_time) (inject_Z timeout)) eqn:Hlt;
    try (simpl; discriminate).
  - apply Qltb_true in Hlt. exfalso.
    destruct (Hread (world st)) as [Hlo _]. fold (reading rt st) in Hlo.
    change (inject_Z (2 * Z.of_nat 0)) with 0%Q in Hbudget. lra.
  - destruct (get_instance_outcome rt c name (clock_read rt st))
      as (out & st1 & Hget & Hworld & _ & [-> | [(x & -> & _) | (e & ->)]]);
      rewrite Hget; try (simpl; discriminate).
    + simpl. apply IH. budget Hread Hrun Hsleep Hworld Hbudget st st1.
    + destruct (has_status desired x); [simpl; discriminate |].
      apply IH. budget Hread Hrun Hsleep Hworld Hbudget st st1.
Qed.

(** A loop that ends otherwise than by lack of fuel has run as the
    specification of the poller says. *)
Lemma wait_loop_awaits (c : RestApiClient) (name desired : string) (timeout : Z)
    (start_time : Q) (fuel : nat) :
  forall (st : State W) (out : outcome bool) (st' : State W),
    wait_loop rt fuel c name desired timeout start_time st = (out, st') ->
    out <> OutOfFuel ->
    awaits rt c name desired timeout start_time st out st'.
Proof.
  induction fuel as [|fuel IH]; intros st out st' Hrun Hout.
  - inversion Hrun; subst. congruence.
  - rewrite wait_loop_step in Hrun.
    destruct (Qltb (reading rt st - start_time) (inject_Z timeout)) eqn:Hlt.
    + apply Qltb_true in Hlt.
      destruct (get_instance_outcome rt c name (clock_read rt st))
        as (o & st1 & Hget & _ & _ & [-> | [(x & -> & _) | (e & ->)]]);
        rewrite Hget in Hrun.
      * change (has_status desired VNone) with false in Hrun.
        eapply awaits_retry; eauto.
      * destruct (has_status desired x) eqn:Hstatus.
        -- inversion Hrun; subst. eapply awaits_reached; eauto.
        -- eapply awaits_retry; eauto.
      * inversion Hrun; subst. eapply awaits_raised; eauto.
    + apply Qltb_false in Hlt. inversion Hrun; subst.
      now apply awaits_timeout.
Qed.

(** A run the specification allows is the run of the loop, given fuel
    for its turns. *)
Lemma awaits_wait_loop (c : RestApiClient) (name desired : string) (timeout : Z)
    (start_time : Q) (st : State W) (out : outcome bool) (st' : State W) :
  awaits rt c name desired timeout start_time st out st' ->
  exists n, forall fuel, (n <= fuel)%nat ->
    wait_loop rt fuel c name desired timeout start_time st = (out, st').
Proof.
  induction 1 as [st Hout | st st1 found Hin Hget Hstatus
                  | st st1 st' found out Hin Hget Hstatus _ IH
                  | st st1 e Hin Hget].
  - exists 1%nat. intros [|fuel] Hfuel; [lia |].
    rewrite wait_loop_step. apply Qltb_false in Hout. now rewrite Hout.
  - exists 1%nat. intros [|fuel] Hfuel; [lia |].
    rewrite wait_loop_step. apply Qltb_true in Hin.
    now rewrite Hin, Hget, Hstatus.
  - destruct IH as [n IH]. exists (S n). intros [|fuel] Hfuel; [lia |].
    rewrite wait_loop_step. apply Qltb_true in Hin.
    rewrite Hin, Hget, Hstatus. apply IH. lia.
  - exists 1%nat. intros [|fuel] Hfuel; [lia |].
    rewrite wait_loop_step. apply Qltb_true in Hin.
    now rewrite Hin, Hget.
Qed.

End Poller.

Section PollerClaim.

Context {W : Type} (rt : Runtime W).

Lemma wait_for_state_unfold (fuel : nat) (c : RestApiClient) (name desired : string)
    (timeout : Z) (st : State W) :
  wait_for_state rt fuel c name desired timeout st =
    wait_loop rt fuel c name desired timeout (reading rt st) (clock_read rt st).
Proof.
  unfold wait_for_state, bind. now rewrite now_reads.
Qed.

(** C6: [wait_for_state] runs as the specification of the poller says
    and in no other way. It reads the clock for the start time; then a
    turn whose elapsed time is not below the timeout returns false,
    without a call and without an error, and a turn within the timeout
    fetches the instance again and returns true at once if its status is
    the target, and otherwise sleeps 2 seconds and goes round again. Every
    run that ends is such a run, every such run is the run of
    [wait_for_state] given fuel for its turns, a finished poll has issued
    only lookups, each miss followed by one sleep of 2 seconds, and with a
    sound clock the poll does finish, after at most (timeout + 1) / 2
    misses. *)
Theorem wait_for_state_polls_until_status_or_timeout (c : RestApiClient)
    (name desired : string) (timeout : Z) :
  (forall fuel st out st',
     wait_for_state rt fuel c name desired timeout st = (out, st') ->
     out <> OutOfFuel ->
     awaits rt c name desired timeout (reading rt st) (clock_read rt st) out st') /\
  (forall st out st',
     awaits rt c name desired timeout (reading rt st) (clock_read rt st) out st' ->
     exists n, forall fuel, (n <= fuel)%nat ->
       wait_for_state rt fuel c name desired timeout st = (out, st')) /\
  (forall fuel st b st',
     wait_for_state rt fuel c name desired timeout st = (Ok b, st') ->
     exists k, (k <= fuel)%nat /\
       log st' = (log st ++ missed_polls k ++ (if b then [lookup_call] else []))%list) /\
  (forall clock fuel st,
     clock_sound rt clock ->
     (Z.to_nat ((timeout + 1) / 2) < fuel)%nat ->
     exists out st',
       wait_for_state rt fuel c name desired timeout st = (out, st') /\
       out <> OutOfFuel).
Proof.
  split; [| split; [| split]].
  - intros fuel st out st' Hrun Hout. rewrite wait_for_state_unfold in Hrun.
    exact (wait_loop_awaits rt c name desired timeout (reading rt st) fuel
             (clock_read rt st) out st' Hrun Hout).
  - intros st out st' Hspec.
    destruct (awaits_wait_loop rt c name desired timeout (reading rt st)
                (clock_read rt st) out st' Hspec) as [n Hn].
    exists n. intros fuel Hfuel. rewrite wait_for_state_unfold. now apply Hn.
  - intros fuel st b st' Hrun. rewrite wait_for_state_unfold in Hrun.
    apply wait_loop_log in Hrun. exact Hrun.
  - intros clock fuel st Hsound Hfuel.
    destruct fuel as [|fuel]; [lia |].
    destruct (wait_for_state rt (S fuel) c name desired timeout st) as [out st'] eqn:Hrun.
    exists out, st'. split; [reflexivity |].
    rewrite wait_for_state_unfold in Hrun.
    pose proof (wait_loop_terminates rt clock c name desired timeout (reading rt st)
                  Hsound fuel (clock_read rt st)) as Hterm.
    rewrite Hrun in Hterm. apply Hterm.
    destruct Hsound as (Hread & _ & _).
    destruct (Hread (world st)) as [_ Hhi].
    assert (Hz : (timeout <= 2 * Z.of_nat fuel)%Z).
    { pose proof (Z.div_mod (timeout + 1) 2 ltac:(lia)).
      pose proof (Z.mod_pos_bound (timeout + 1) 2 ltac:(lia)). lia. }
    rewrite Zle_Qle in Hz.
    cbn [clock_read world]. unfold reading. lra.
Qed.

End PollerClaim.

Lemma mock_clock_sound : clock_sound Mock.rt Mock.clock.
Proof.
  repeat split; simpl.
  - apply Qle_refl.
  - apply Qle_refl.
  - intros cmd w. unfold Mock.mock_run_command.
    destruct (Mock.script w); simpl; apply Qle_refl.
  - intros d w. apply Qle_refl.
Qed.

(** The two unit tests of [wait_for_state]: the status is reached at the
    second lookup, after one sleep; and it is never reached, so the poll
    gives up once 3 seconds are over. *)
Example wait_for_state_success_and_timeout :
  (let run := wait_for_state Mock.rt 5 Mock.client "matchbox" "Running" 60
                (Mock.boot [Mock.served (VList [Mock.matchbox "Starting"]);
                            Mock.served (VList [Mock.matchbox "Running"])]) in
   fst run = Ok true /\
   log (snd run) = [lookup_call; EvSleep 2; lookup_call]) /\
  (let run := wait_for_state Mock.rt 5 Mock.client "matchbox" "Running" 3
                (Mock.boot [Mock.served (VList [Mock.matchbox "Starting"]);
                            Mock.served (VList [Mock.matchbox "Starting"])]) in
   fst run = Ok false /\
   log (snd run) = [lookup_call; EvSleep 2; lookup_call; EvSleep 2]).
Proof. vm_compute. repeat split; reflexivity. Qed.

(* ===================================================================== *)
(** ** The reconciler *)
(* ===================================================================== *)

Section Reconciler.

Context {W : Type} (rt : Runtime W).

Lemma init_with_key (p : Params) (st : State W) :
  opt_str_truthy (p_api_key p) = true ->
  RestApi.init (p_api_url p) (p_api_key p) st = (Ok (client_of p), st).
Proof.
  intros Hkey. unfold RestApi.init. rewrite Hkey. reflexivity.
Qed.

Lemma init_without_key (p : Params) (st : State W) :
  opt_str_truthy (p_api_key p) = false ->
  RestApi.init (p_api_url p) (p_api_key p) st =
    (FailJson "api_key is required for REST API access", st).
Proof.
  intros Hkey. unfold RestApi.init. rewrite Hkey. reflexivity.
Qed.

(** [main] up to the lookup: without a key it fails before any call. *)
Lemma main_without_key (fuel : nat) (module : AnsibleModule) (st : State W) :
  opt_str_truthy (p_api_key (params module)) = false ->
  main rt fuel module st = (FailJson "api_key is required for REST API access", st).
Proof.
  intros Hkey. unfold main. unfold bind at 1.
  now rewrite (init_without_key _ _ Hkey).
Qed.

(** A lookup that raises ends [main]. *)
Lemma main_lookup_raises (fuel : nat) (module : AnsibleModule) (st st1 : State W) (e : exn) :
  opt_str_truthy (p_api_key (params module)) = true ->
  get_instance rt (client_of (params module)) (p_name (params module)) st = (Raise e, st1) ->
  main rt fuel module st = (Raise e, st1).
Proof.
  intros Hkey Hget. unfold main. unfold bind at 1.
  rewrite (init_with_key _ _ Hkey). unfold bind at 1. now rewrite Hget.
Qed.

(** What the lookup hands to the branches of [main]: nothing, or a record. *)
Lemma get_instance_found (c : RestApiClient) (name : string) (st st1 : State W)
    (found : value) :
  get_instance rt c name st = (Ok found, st1) ->
  log st1 = (log st ++ [lookup_call])%list /\
  (found = VNone \/ exists d, found = VDict d /\ truthy found = true).
Proof.
  intros Hget.
  destruct (get_instance_outcome rt c name st)
    as (out & st' & Hget' & _ & Hlog & Hcases).
  rewrite Hget in Hget'. inversion Hget'; subst. split; [exact Hlog |].
  destruct Hcases as [H | [(x & H & Hx) | (e & H)]]; inversion H; subst; auto.
  right. destruct (has_name_record _ _ Hx) as [Hrec Ht].
  destruct x; try discriminate. eauto.
Qed.

End Reconciler.

(* Opens [main] on a run whose key is configured and whose lookup returned. *)
Ltac enter_main Hkey Hget :=
  unfold main; cbn [params check_mode];
  unfold bind at 1; rewrite (init_with_key _ _ Hkey);
  unfold bind at 1; rewrite Hget; cbn beta iota zeta.

Section ReconcilerClaims.

Context {W : Type} (rt : Runtime W).

(** C7: for the states started, stopped and restarted, a lookup that finds
    no instance of the name ends the run in [fail_json] with a message that
    names the instance; the lookup is the only call issued. *)
Theorem missing_instance_is_fatal (fuel : nat) (module : AnsibleModule)
    (st st1 : State W) :
  needs_instance (p_state (params module)) = true ->
  opt_str_truthy (p_api_key (params module)) = true ->
  get_instance rt (client_of (params module)) (p_name (params module)) st
    = (Ok VNone, st1) ->
  main rt fuel module st
    = (FailJson ("Instance " ++ p_name (params module) ++ " does not exist"), st1) /\
  log st1 = (log st ++ [lookup_call])%list.
Proof.
  intros Hstate Hkey Hget.
  split; [| apply (get_instance_found rt _ _ _ _ _ Hget)].
  enter_main Hkey Hget.
  destruct (p_state (params module)); try discriminate; reflexivity.
Qed.

End ReconcilerClaims.

Lemma missing_instance_is_fatal_witness :
  let st1 := {| world := {| Mock.script := []; Mock.clock := 0 |};
                log := [lookup_call] |} in
  main Mock.rt 5 (Mock.task started None false) (Mock.boot [Mock.served (VList [])])
    = (FailJson "Instance matchbox does not exist", st1)
  /\ log st1 = [lookup_call].
Proof.
  apply (missing_instance_is_fatal Mock.rt 5 (Mock.task started None false)
           (Mock.boot [Mock.served (VList [])])); reflexivity.
Defined.

Section DryRun.

Context {W : Type} (rt : Runtime W).






End DryRun.




Section DryRunClaim.

Context {W : Type} (rt : Runtime W).

(** The whole of a check-mode run after a lookup that returned. *)
Lemma dry_run_result (fuel : nat) (p : Params) (st st1 : State W) (found : value) :
  opt_str_truthy (p_api_key p) = true ->
  get_instance rt (client_of p) (p_name p) st = (Ok found, st1) ->
  main rt fuel {| params := p; check_mode := true |} st =
    (if needs_instance (p_state p) && negb (truthy found)
     then FailJson ("Instance " ++ p_name p ++ " does not exist")
     else Ok {| changed := would_mutate (p_state p) found;
                instance := match p_state p with
                            | present => or_empty found
                            | absent => VDict []
                            | _ => found
                            end |},
     st1).
Proof.
  intros Hkey Hget.
  destruct (get_instance_found rt _ _ _ _ _ Hget) as [_ [-> | (d & -> & Ht)]];
    [| destruct d as [|kv d]; [discriminate Ht |]];
    enter_main Hkey Hget.
  - destruct (p_state p); reflexivity.
  - destruct (p_state p); cbn; try reflexivity.
    + destruct (value_eq_str (dict_get (kv :: d) "status") "Running"); reflexivity.
    + destruct (value_eq_str (dict_get (kv :: d) "status") "Stopped"); reflexivity.
Qed.



End DryRunClaim.

Section RealRunClaims.

Context {W : Type} (rt : Runtime W).

(** C9: for the states started, stopped and restarted, once the action
    call has succeeded the run reports changed=true and the instance the
    lookup found, whatever the poll returns: a poll that timed out (false)
    gives the same result as one that saw the target status (true), and
    no error. *)
Theorem poll_outcome_is_ignored (fuel : nat) (module : AnsibleModule)
    (st st1 st2 st3 : State W) (found instance_id : value) (reached : bool) :
  let p := params module in
  check_mode module = false ->
  needs_instance (p_state p) = true ->
  opt_str_truthy (p_api_key p) = true ->
  get_instance rt (client_of p) (p_name p) st = (Ok found, st1) ->
  truthy found = true ->
  would_mutate (p_state p) found = true ->
  subscript found "id" = Ok instance_id ->
  action rt (p_state p) module (client_of p) instance_id st1 = (Ok true, st2) ->
  wait_for_state rt fuel (client_of p) (p_name p) (target_status (p_state p))
    (p_timeout p) st2 = (Ok reached, st3) ->
  main rt fuel module st = (Ok {| changed := true; instance := found |}, st3).
Proof.
  intros p Hcheck Hstate Hkey Hget Htruthy Hmutate Hid Haction Hpoll. subst p.
  destruct (get_instance_found rt _ _ _ _ _ Hget) as [_ [-> | (d & -> & _)]];
    [discriminate Htruthy |].
  enter_main Hkey Hget. rewrite Hcheck, Htruthy.
  destruct (p_state (params module)); try discriminate Hstate;
    cbn [would_mutate has_status action target_status negb] in *.
  - unfold bind at 1. unfold lift at 1. cbn [py_get]. rewrite Hmutate.
    unfold bind at 1. unfold lift at 1. rewrite Hid.
    unfold bind at 1. rewrite Haction.
    unfold bind at 1. rewrite Hpoll. reflexivity.
  - unfold bind at 1. unfold lift at 1. cbn [py_get]. rewrite Hmutate.
    unfold bind at 1. unfold lift at 1. rewrite Hid.
    unfold bind at 1. rewrite Haction.
    unfold bind at 1. rewrite Hpoll. reflexivity.
  - unfold bind at 1. unfold lift at 1. rewrite Hid.
    unfold bind at 1. rewrite Haction.
    unfold bind at 1. rewrite Hpoll. reflexivity.
Qed.

Lemma create_instance_accepted (module : AnsibleModule) (c : RestApiClient)
    (st st' : State W) (resp : ApiResponse) (created : value) :
  call rt c "/virt/instance" "POST" (Some (BodyDict (create_payload (params module)))) 60 st
    = (Ok resp, st') ->
  In (status_code resp) [200; 201] ->
  json rt resp = Ok created ->
  create_instance rt module c st = (Ok (true, created), st').
Proof.
  intros Hcall Hin Hjson. apply int_in_In in Hin.
  unfold create_instance, bind, lift. now rewrite Hcall, Hin, Hjson.
Qed.

(** What [present] does by design: an instance that exists is left alone. *)
Lemma present_existing_is_noop (fuel : nat) (module : AnsibleModule)
    (st st1 : State W) (found : value) :
  p_state (params module) = present ->
  opt_str_truthy (p_api_key (params module)) = true ->
  get_instance rt (client_of (params module)) (p_name (params module)) st
    = (Ok found, st1) ->
  truthy found = true ->
  main rt fuel module st = (Ok {| changed := false; instance := found |}, st1) /\
  log st1 = (log st ++ [lookup_call])%list.
Proof.
  intros Hstate Hkey Hget Htruthy.
  split; [| apply (get_instance_found rt _ _ _ _ _ Hget)].
  enter_main Hkey Hget. rewrite Hstate, Htruthy. cbn [negb].
  unfold or_empty. now rewrite Htruthy.
Qed.

(** With a config supplied, a missing instance is created, and started
    exactly when the create call returned a non-empty body and the config
    holds [boot.autostart] equal to the string true. *)
Lemma present_creates_then_autostarts (fuel : nat) (module : AnsibleModule)
    (st st1 st2 : State W) (resp : ApiResponse) (created : value) (cfg : dict) :
  let p := params module in
  p_state p = present ->
  check_mode module = false ->
  p_config p = Some cfg ->
  opt_str_truthy (p_api_key p) = true ->
  get_instance rt (client_of p) (p_name p) st = (Ok VNone, st1) ->
  call rt (client_of p) "/virt/instance" "POST" (Some (BodyDict (create_payload p))) 60 st1
    = (Ok resp, st2) ->
  In (status_code resp) [200; 201] ->
  json rt resp = Ok created ->
  log st2 = (log st ++ [lookup_call; create_call p])%list /\
  main rt fuel module st =
    if truthy created && value_eq_str (dict_get cfg "boot.autostart") "true"
    then (instance_id <- lift (subscript created "id") ;;
          start_instance rt module (client_of p) instance_id ;;;
          exit_json true created) st2
    else (Ok {| changed := true; instance := or_empty created |}, st2).
Proof.
  intros p Hstate Hcheck Hcfg Hkey Hget Hcall Hin Hjson. subst p. split.
  - destruct (call_returns rt (client_of (params module)) "/virt/instance" "POST"
                (Some (BodyDict (create_payload (params module)))) 60 st1)
      as (resp' & st2' & Hcall' & _ & _ & Hlog).
    rewrite Hcall in Hcall'. inversion Hcall'; subst.
    rewrite Hlog. destruct (get_instance_found rt _ _ _ _ _ Hget) as [-> _].
    now rewrite <- app_assoc.
  - enter_main Hkey Hget. rewrite Hstate, Hcheck. cbn [truthy negb].
    unfold bind at 1.
    rewrite (create_instance_accepted module _ st1 st2 resp created Hcall Hin Hjson).
    cbn [fst snd]. rewrite Hcfg. cbn [param_value].
    unfold or_empty.
    destruct (truthy created) eqn:Htruthy; cbn [andb].
    + unfold bind at 1. unfold bind at 1. unfold lift at 1. cbn [py_get].
      unfold ret at 1.
      destruct (value_eq_str (dict_get cfg "boot.autostart") "true").
      * unfold bind.
        destruct (lift (subscript created "id") st2) as [[v | | |] s];
          try reflexivity.
        destruct (start_instance rt module (client_of (params module)) v s)
          as [[? | | |] ?]; reflexivity.
      * reflexivity.
    + reflexivity.
Qed.

(** C2 at the input where the code departs from it: [present], no instance
    of the name, config not supplied, and a create call that succeeded with
    a non-empty body. The test for [boot.autostart] then calls [get] on
    [None]: the run ends with [AttributeError] after the create call,
    instead of reporting changed=true. *)
Theorem present_without_config_raises (fuel : nat) (module : AnsibleModule)
    (st st1 st2 : State W) (resp : ApiResponse) (created : value) :
  let p := params module in
  p_state p = present ->
  check_mode module = false ->
  p_config p = None ->
  opt_str_truthy (p_api_key p) = true ->
  get_instance rt (client_of p) (p_name p) st = (Ok VNone, st1) ->
  call rt (client_of p) "/virt/instance" "POST" (Some (BodyDict (create_payload p))) 60 st1
    = (Ok resp, st2) ->
  In (status_code resp) [200; 201] ->
  json rt resp = Ok created ->
  truthy created = true ->
  main rt fuel module st = (Raise AttributeError, st2) /\
  log st2 = (log st ++ [lookup_call; create_call p])%list.
Proof.
  intros p Hstate Hcheck Hcfg Hkey Hget Hcall Hin Hjson Htruthy. subst p. split.
  - enter_main Hkey Hget. rewrite Hstate, Hcheck. cbn [truthy negb].
    unfold bind at 1.
    rewrite (create_instance_accepted module _ st1 st2 resp created Hcall Hin Hjson).
    cbn [fst snd]. rewrite Htruthy, Hcfg. reflexivity.
  - destruct (call_returns rt (client_of (params module)) "/virt/instance" "POST"
                (Some (BodyDict (create_payload (params module)))) 60 st1)
      as (resp' & st2' & Hcall' & _ & _ & Hlog).
    rewrite Hcall in Hcall'. inversion Hcall'; subst.
    rewrite Hlog. destruct (get_instance_found rt _ _ _ _ _ Hget) as [-> _].
    now rewrite <- app_assoc.
Qed.

(** [absent] on an instance that exists runs [delete_instance] on its id
    without looking at its status. *)
Lemma absent_deletes_whatever_the_status (fuel : nat) (module : AnsibleModule)
    (st st1 : State W) (found instance_id : value) :
  let p := params module in
  p_state p = absent ->
  check_mode module = false ->
  opt_str_truthy (p_api_key p) = true ->
  get_instance rt (client_of p) (p_name p) st = (Ok found, st1) ->
  truthy found = true ->
  subscript found "id" = Ok instance_id ->
  main rt fuel module st =
    (c <- delete_instance rt module (client_of p) instance_id ;;
     exit_json c (VDict [])) st1.
Proof.
  intros p Hstate Hcheck Hkey Hget Htruthy Hid. subst p.
  enter_main Hkey Hget. rewrite Hstate, Hcheck, Htruthy. cbn [negb].
  unfold bind at 1. unfold lift at 1. now rewrite Hid.
Qed.

End RealRunClaims.

(* ===================================================================== *)
(** ** Runs against the scripted back end *)
(* ===================================================================== *)

(** [started] on a stopped instance: the start call is accepted, the two
    polls within the 3-second timeout see [Starting], the poll gives up,
    and the run still reports changed=true. *)
Lemma poll_outcome_is_ignored_witness :
  main Mock.rt 5 (Mock.task started None false)
    (Mock.boot [Mock.served (VList [Mock.matchbox "Stopped"]);
                (0, "", "");
                Mock.served (VList [Mock.matchbox "Starting"]);
                Mock.served (VList [Mock.matchbox "Starting"])])
  = (Ok {| changed := true; instance := Mock.matchbox "Stopped" |},
     {| world := {| Mock.script := []; Mock.clock := 4 |};
        log := [lookup_call;
                EvCall "/virt/instance/123/start" "POST" None;
                lookup_call; EvSleep 2; lookup_call; EvSleep 2] |}).
Proof.
  apply (poll_outcome_is_ignored Mock.rt 5 (Mock.task started None false)
           (Mock.boot [Mock.served (VList [Mock.matchbox "Stopped"]);
                       (0, "", "");
                       Mock.served (VList [Mock.matchbox "Starting"]);
                       Mock.served (VList [Mock.matchbox "Starting"])])
           {| world := {| Mock.script :=
                            [(0, "", "");
                             Mock.served (VList [Mock.matchbox "Starting"]);
                             Mock.served (VList [Mock.matchbox "Starting"])];
                          Mock.clock := 0 |};
              log := [lookup_call] |}
           {| world := {| Mock.script :=
                            [Mock.served (VList [Mock.matchbox "Starting"]);
                             Mock.served (VList [Mock.matchbox "Starting"])];
                          Mock.clock := 0 |};
              log := [lookup_call; EvCall "/virt/instance/123/start" "POST" None] |}
           _ (Mock.matchbox "Stopped") (VStr "123") false);
    reflexivity.
Defined.

(** [present] with no config, no instance yet, and a create call that
    returns the new record. *)
Lemma present_without_config_raises_witness :
  let module := Mock.task present None false in
  let st2 := {| world := {| Mock.script := []; Mock.clock := 0 |};
                log := [lookup_call; create_call (params module)] |} in
  main Mock.rt 5 module
    (Mock.boot [Mock.served (VList []); Mock.served (Mock.matchbox "Stopped")])
  = (Raise AttributeError, st2)
  /\ log st2 = [lookup_call;
                EvCall "/virt/instance" "POST"
                  (Some (BodyDict [("name", VStr "matchbox");
                                   ("type", VStr "CONTAINER")]))].
Proof.
  apply (present_without_config_raises Mock.rt 5 (Mock.task present None false)
           (Mock.boot [Mock.served (VList []); Mock.served (Mock.matchbox "Stopped")])
           {| world := {| Mock.script := [Mock.served (Mock.matchbox "Stopped")];
                          Mock.clock := 0 |};
              log := [lookup_call] |}
           _ {| rc := 0; stdout := Mock.mock_dumps (Mock.matchbox "Stopped"); stderr := "" |}
           (Mock.matchbox "Stopped"));
    try reflexivity.
  simpl. auto.
Defined.

(** The examples of the specification: [present] with
    [boot.autostart] set to the string true creates and then starts;
    [absent] on instance 123 stops and then deletes; a second [present]
    finds the instance and changes nothing. *)
Example reconcile_examples :
  (let run := main Mock.rt 5
                (Mock.task present (Some [("boot.autostart", VStr "true")]) false)
                (Mock.boot [Mock.served (VList []);
                            Mock.served (Mock.matchbox "Stopped");
                            (0, "", "")]) in
   fst run = Ok {| changed := true; instance := Mock.matchbox "Stopped" |} /\
   log (snd run) =
     [lookup_call;
      EvCall "/virt/instance" "POST"
        (Some (BodyDict [("name", VStr "matchbox"); ("type", VStr "CONTAINER");
                         ("config", VDict [("boot.autostart", VStr "true")])]));
      EvCall "/virt/instance/123/start" "POST" None]) /\
  (let run := main Mock.rt 5 (Mock.task absent None false)
                (Mock.boot [Mock.served (VList [Mock.matchbox "Running"]);
                            (0, "", ""); (0, "", "")]) in
   fst run = Ok {| changed := true; instance := VDict [] |} /\
   log (snd run) =
     [lookup_call;
      EvCall "/virt/instance/123/stop" "POST" None;
      EvCall "/virt/instance/123" "DELETE" None]) /\
  (let run := main Mock.rt 5 (Mock.task present None false)
                (Mock.boot [Mock.served (VList [Mock.matchbox "Stopped"])]) in
   fst run = Ok {| changed := false; instance := Mock.matchbox "Stopped" |} /\
   log (snd run) = [lookup_call]).
Proof. vm_compute. repeat split; reflexivity. Qed.

(* ===================================================================== *)
(** ** More on the transport: URLs, status codes, exit codes *)
(* ===================================================================== *)

Lemma prefix_occurs (p s : string) :
  String.prefix p s = true <-> exists b, s = p ++ b.
Proof.
  revert s. induction p as [|a p IH]; intros s.
  - destruct s; simpl; split; eauto.
  - destruct s as [|b s]; simpl.
    + split; [discriminate | intros [x Hx]; discriminate].
    + destruct (ascii_dec a b) as [-> | Hab].
      * rewrite IH. split; intros [x Hx]; exists x; congruence.
      * split; [discriminate | intros [x Hx]; congruence].
Qed.

Lemma contains_unfold (sub s : string) :
  contains sub s =
    String.prefix sub s ||
    match s with
    | EmptyString => false
    | String _ s' => contains sub s'
    end.
Proof. destruct s; reflexivity. Qed.

Lemma contains_occurs (sub s : string) :
  contains sub s = true <-> occurs sub s.
Proof.
  unfold occurs. split.
  - induction s as [|c s IH]; rewrite contains_unfold, orb_true_iff; intros [H | H].
    + apply prefix_occurs in H. destruct H as [b Hb]. exists "", b. exact Hb.
    + discriminate.
    + apply prefix_occurs in H. destruct H as [b Hb]. exists "", b. exact Hb.
    + destruct (IH H) as (a & b & ->). exists (String c a), b. reflexivity.
  - intros (a & b & ->). induction a as [|c a IH].
    + rewrite contains_unfold.
      replace (String.prefix sub ("" ++ sub ++ b)) with true; [reflexivity |].
      symmetry. apply prefix_occurs. exists b. reflexivity.
    + rewrite contains_unfold. cbn [append]. rewrite IH. apply orb_true_r.
Qed.

Lemma rstrip_snoc (c : ascii) (u : string) :
  rstrip c (u ++ String c "") = rstrip c u.
Proof.
  induction u as [|a u IH]; simpl.
  - now rewrite Ascii.eqb_refl.
  - now rewrite IH.
Qed.

Lemma lstrip_without_leading (url : string) :
  startswith "/" url = false -> lstrip "/" url = url.
Proof.
  destruct url as [|a url]; [reflexivity |].
  unfold startswith. simpl.
  destruct (ascii_dec "/" a) as [<- | Hne].
  - destruct url; discriminate.
  - intros _. destruct (Ascii.eqb_spec a "/"); [congruence | reflexivity].
Qed.

Lemma status_code_200 (r : ApiResponse) : status_code r = 200 <-> rc r = 0.
Proof.
  unfold status_code. destruct (Z.eqb_spec (rc r) 0) as [H0 | H0]; [tauto |].
  split; [| tauto].
  repeat match goal with
         | |- context [if ?b then _ else _] => destruct b
         end; discriminate.
Qed.

Lemma status_code_409 (r : ApiResponse) : status_code r = 409 -> rc r = 22.
Proof.
  unfold status_code. destruct (rc r =? 0); [discriminate |].
  destruct (Z.eqb_spec (rc r) 22); [auto | discriminate].
Qed.

Section TransportMore.

Context {W : Type} (rt : Runtime W).

(** X1: trailing slashes of the base URL make no difference to the request. *)
Theorem api_url_trailing_slash_ignored (c : RestApiClient) (u url method : string)
    (data : option body) (timeout : Z) :
  command rt (with_api_url c (u ++ "/")) url method data timeout =
  command rt (with_api_url c u) url method data timeout.
Proof.
  unfold command, with_api_url. cbn [api_url headers].
  now rewrite rstrip_snoc.
Qed.

(** X2: a path given without its leading slash is requested at the same
    URL as the path with it, unless it starts with http, in which case it
    is taken for a full URL. *)
Theorem relative_path_leading_slash_optional (c : RestApiClient) (url method : string)
    (data : option body) (timeout : Z) :
  startswith "/" url = false ->
  startswith "http" url = false ->
  command rt c url method data timeout =
  command rt c ("/" ++ url) method data timeout.
Proof.
  intros Hslash Hhttp. unfold command.
  rewrite Hslash, Hhttp. cbn [negb].
  rewrite (lstrip_without_leading url Hslash).
  replace (startswith "/" ("/" ++ url)) with true; [reflexivity |].
  unfold startswith. simpl. destruct (ascii_dec "/" "/"); [| congruence].
  now destruct url.
Qed.

(** X3: with exit code 22, a stderr in which 404 occurs anywhere is
    reported as 404, whatever status the text goes on to name. *)
Theorem status_code_404_wins (r : ApiResponse) :
  rc r = 22 -> occurs "404" (stderr r) -> status_code r = 404.
Proof.
  intros Hrc Hocc. apply contains_occurs in Hocc.
  unfold status_code. now rewrite Hrc, Hocc.
Qed.

(** X4: in terms of the curl exit code. Because [status_code] never gives
    201, 202 or 204, [create_instance] returns exactly on exit code 0 with
    a body that [json] returns, and raises what [json] raises on exit code
    0; [restart_instance] succeeds exactly on exit code 0; and
    [start_instance] exactly on exit code 0 or on exit code 22 with a
    stderr read as 409. *)
Theorem success_by_exit_code (module : AnsibleModule) (c : RestApiClient)
    (instance_id : value) (st : State W) :
  (exists resp st',
     call rt c "/virt/instance" "POST"
       (Some (BodyDict (create_payload (params module)))) 60 st = (Ok resp, st') /\
     (forall created,
        create_instance rt module c st = (Ok (true, created), st') <->
        rc resp = 0 /\ json rt resp = Ok created) /\
     (forall e,
        rc resp = 0 -> json rt resp = Raise e ->
        create_instance rt module c st = (Raise e, st'))) /\
  (exists resp st',
     call rt c ("/virt/instance/" ++ format_value rt instance_id ++ "/restart")
       "POST" None 60 st = (Ok resp, st') /\
     (restart_instance rt module c instance_id st = (Ok true, st') <-> rc resp = 0)) /\
  (exists resp st',
     call rt c ("/virt/instance/" ++ format_value rt instance_id ++ "/start")
       "POST" None 60 st = (Ok resp, st') /\
     (start_instance rt module c instance_id st = (Ok true, st') <->
      rc resp = 0 \/ (rc resp = 22 /\ status_code resp = 409))).
Proof.
  split; [| split].
  - destruct (call_returns rt c "/virt/instance" "POST"
                (Some (BodyDict (create_payload (params module)))) 60 st)
      as (resp & st' & Hcall & _).
    exists resp, st'. split; [exact Hcall |].
    unfold create_instance, bind, lift. rewrite Hcall.
    pose proof (status_code_values resp) as Hv.
    destruct (int_in (status_code resp) [200; 201]) eqn:Hin.
    + apply int_in_In in Hin.
      assert (Hrc : rc resp = 0)
        by (apply status_code_200; simpl in Hin, Hv; lia).
      split.
      * intros created. destruct (json rt resp) as [body | msg | e |]; split;
          try (intros H; inversion H; subst; auto; fail);
          try (intros [_ H]; inversion H; subst; reflexivity).
      * intros e _ ->. reflexivity.
    + apply int_in_not_In in Hin. split.
      * intros created. split; [discriminate |].
        intros [H _]. exfalso. apply Hin. apply status_code_200 in H.
        simpl. auto.
      * intros e H _. exfalso. apply Hin. apply status_code_200 in H.
        simpl. auto.
  - destruct (restart_instance_classifies rt module c instance_id st)
      as (resp & st' & Hcall & _ & Hin & Hout).
    exists resp, st'. split; [exact Hcall |].
    rewrite <- status_code_200.
    pose proof (status_code_values resp) as Hv.
    destruct (in_dec Z.eq_dec (status_code resp) [200; 202]) as [H | H].
    + rewrite (Hin H). split; [| reflexivity].
      intros _. simpl in H, Hv. lia.
    + rewrite (Hout H). split; [discriminate |].
      intros H200. exfalso. apply H. simpl. auto.
  - destruct (start_instance_classifies rt module c instance_id st)
      as (resp & st' & Hcall & _ & Hin & Hout).
    exists resp, st'. split; [exact Hcall |].
    rewrite <- status_code_200.
    pose proof (status_code_values resp) as Hv.
    destruct (in_dec Z.eq_dec (status_code resp) [200; 202; 409]) as [H | H].
    + rewrite (Hin H). split; [| reflexivity].
      intros _. simpl in H, Hv.
      destruct (Z.eq_dec (status_code resp) 409) as [H409 | H409].
      * right. split; [now apply status_code_409 | exact H409].
      * left. lia.
    + rewrite (Hout H). split; [discriminate |].
      intros [H200 | [_ H409]]; exfalso; apply H; simpl; auto.
Qed.

End TransportMore.

Lemma relative_path_leading_slash_optional_witness :
  command Mock.rt Mock.client "virt/instance" "GET" None 60 =
  command Mock.rt Mock.client ("/" ++ "virt/instance") "GET" None 60.
Proof.
  apply (relative_path_leading_slash_optional Mock.rt Mock.client "virt/instance");
    reflexivity.
Defined.

(** A 500 answered by a host on port 4040 is read as 404. *)
Lemma status_code_404_wins_witness :
  status_code
    {| rc := 22; stdout := "";
       stderr := "curl: (22) The requested URL returned error: 500 (nas:4040)" |}
  = 404.
Proof.
  apply status_code_404_wins; [reflexivity |].
  exists "curl: (22) The requested URL returned error: 500 (nas:", "0)".
  reflexivity.
Defined.

(* ===================================================================== *)
(** ** More on the lookup: malformed collections *)
(* ===================================================================== *)

Lemma scan_raises_on_non_record (name : string) (l1 : list value) (y : value)
    (l2 : list value) :
  Forall (fun x => is_record x = true /\ has_name name x = false) l1 ->
  is_record y = false ->
  scan (l1 ++ y :: l2) name = Raise AttributeError.
Proof.
  intros Hl1 Hy. induction Hl1 as [|x l1 [Hrec Hno] _ IH].
  - destruct y; try discriminate; reflexivity.
  - change ((x :: l1) ++ y :: l2)%list with (x :: (l1 ++ y :: l2))%list.
    rewrite scan_step_other by assumption. exact IH.
Qed.

Section LookupMore.

Context {W : Type} (rt : Runtime W).

(** X5: what the lookup does with a 200 response that is not a list of
    records. An empty list, object or string gives absent; null, a number
    or a boolean raises [TypeError]; a non-empty object or string raises
    [AttributeError], and so does a list with an element that is not a
    record ahead of the first match. *)
Theorem get_instance_malformed_body (c : RestApiClient) (name : string) (st : State W) :
  exists resp st',
    call rt c "/virt/instance" "GET" None 60 st = (Ok resp, st') /\
    (status_code resp = 200 ->
     forall body, json rt resp = Ok body ->
     (In body [VList []; VDict []; VStr ""] ->
      get_instance rt c name st = (Ok VNone, st')) /\
     ((body = VNone \/ (exists b, body = VBool b) \/ (exists n, body = VInt n)) ->
      get_instance rt c name st = (Raise TypeError, st')) /\
     ((exists kv d, body = VDict (kv :: d)) \/
      (exists a s, body = VStr (String a s)) ->
      get_instance rt c name st = (Raise AttributeError, st')) /\
     (forall l1 y l2,
        body = VList (l1 ++ y :: l2) ->
        Forall (fun x => is_record x = true /\ has_name name x = false) l1 ->
        is_record y = false ->
        get_instance rt c name st = (Raise AttributeError, st'))).
Proof.
  destruct (get_instance_unfold rt c name st) as (resp & st' & Hcall & _ & _ & Hget).
  exists resp, st'. split; [exact Hcall |].
  intros H200 body Hjson. rewrite Hget, H200, Hjson. cbn [Z.eqb Pos.eqb obind].
  split; [| split; [| split]].
  - intros [<- | [<- | [<- | []]]]; reflexivity.
  - intros [-> | [[b ->] | [n ->]]]; reflexivity.
  - intros [(kv & d & ->) | (a & s & ->)]; reflexivity.
  - intros l1 y l2 -> Hl1 Hy. cbn [py_iter obind].
    now rewrite scan_raises_on_non_record.
Qed.

(** X6: the lookup issues its GET and nothing else, and ends in one of
    four ways: absent; a non-empty record whose name field is the queried
    name; an [AttributeError] or [TypeError] from a body that is not a
    list of records; or the exception that [json.loads] raised on a 200
    body and [json] does not catch. It never ends in [fail_json]. *)
Theorem get_instance_result_kinds (c : RestApiClient) (name : string) (st : State W) :
  exists resp out st',
    call rt c "/virt/instance" "GET" None 60 st = (Ok resp, st') /\
    get_instance rt c name st = (out, st') /\
    log st' = (log st ++ [lookup_call])%list /\
    (out = Ok VNone \/
     (exists d, out = Ok (VDict d) /\
                dict_lookup d "name" = Some (VStr name) /\ truthy (VDict d) = true) \/
     (exists body, json rt resp = Ok body /\
                   (out = Raise AttributeError \/ out = Raise TypeError)) \/
     (exists e, status_code resp = 200 /\
                json_loads rt (stdout resp) = Escaped e /\ out = Raise e)).
Proof.
  destruct (get_instance_unfold rt c name st) as (resp & st' & Hcall & _ & Hlog & Hget).
  exists resp. eexists; exists st'.
  split; [exact Hcall |]. split; [exact Hget |]. split; [exact Hlog |].
  destruct (Z.eqb_spec (status_code resp) 200) as [H200 | H200]; [| now left].
  assert (Hscan : forall l,
            scan l name = Ok VNone \/
            (exists d, scan l name = Ok (VDict d) /\
                       dict_lookup d "name" = Some (VStr name) /\
                       truthy (VDict d) = true) \/
            scan l name = Raise AttributeError).
  { induction l as [|y l IH]; [now left |].
    destruct y as [| | | | |d]; try (right; right; reflexivity).
    destruct (has_name name (VDict d)) eqn:Hd.
    - right; left. exists d. rewrite scan_step_match by assumption.
      split; [reflexivity |]. split; [| apply (has_name_record _ _ Hd)].
      unfold has_name, dict_get in Hd.
      destruct (dict_lookup d "name") as [[| | |s| |] |]; try discriminate.
      apply String.eqb_eq in Hd. now subst.
    - rewrite scan_step_other by auto. exact IH. }
  destruct (json_loads rt (stdout resp)) as [body | | e] eqn:Hloads.
  - assert (Hjson : json rt resp = Ok body) by (unfold json; now rewrite Hloads).
    rewrite Hjson.
    destruct body as [| b | n | text | l | d]; cbn [py_iter obind].
    + right; right; left. eauto.
    + right; right; left. eauto.
    + right; right; left. eauto.
    + destruct (Hscan (chars text)) as [-> | [(d & -> & H) | ->]]; eauto 8.
    + destruct (Hscan l) as [-> | [(d & -> & H) | ->]]; eauto 8.
    + destruct (Hscan (map (fun kv => VStr (fst kv)) d)) as [-> | [(d' & -> & H) | ->]];
        eauto 8.
  - assert (Hjson : json rt resp = Ok (VDict [])) by (unfold json; now rewrite Hloads).
    rewrite Hjson. now left.
  - assert (Hjson : json rt resp = Raise e) by (unfold json; now rewrite Hloads).
    rewrite Hjson. right; right; right. exists e. auto.
Qed.

End LookupMore.

(** A record without a name field is passed over; a bare string in the
    collection ahead of the match raises; an error object raises; null
    raises. *)
Example get_instance_on_odd_bodies :
  fst (get_instance Fixtures.rt Mock.client "matchbox"
         (Mock.boot [Mock.served (VList [Fixtures.nameless; Mock.matchbox "Running"])]))
    = Ok (Mock.matchbox "Running") /\
  fst (get_instance Fixtures.rt Mock.client "matchbox"
         (Mock.boot [Mock.served (VList [VStr "matchbox"; Mock.matchbox "Running"])]))
    = Raise AttributeError /\
  fst (get_instance Fixtures.rt Mock.client "matchbox"
         (Mock.boot [Mock.served Fixtures.error_envelope]))
    = Raise AttributeError /\
  fst (get_instance Fixtures.rt Mock.client "matchbox" (Mock.boot [Mock.served VNone]))
    = Raise TypeError /\
  fst (get_instance Fixtures.rt Mock.client "matchbox" (Mock.boot [(0, "<html>", "")]))
    = Ok VNone.
Proof. vm_compute. repeat split; reflexivity. Qed.

(* ===================================================================== *)
(** ** More on create: the payload *)
(* ===================================================================== *)

(** X7: the payload of a create call. It always holds the name and the
    type; source, config and devices are present, with the value given,
    exactly when a non-empty dict was supplied, so an empty dict is
    dropped like a missing one; no key occurs twice. *)
Theorem create_payload_fields (p : Params) :
  dict_lookup (create_payload p) "name" = Some (VStr (p_name p)) /\
  dict_lookup (create_payload p) "type" = Some (VStr (type_str (p_type p))) /\
  (forall d, p_source p = Some d -> d <> [] ->
     dict_lookup (create_payload p) "source" = Some (VDict d)) /\
  (p_source p = None \/ p_source p = Some [] ->
     dict_lookup (create_payload p) "source" = None) /\
  (forall d, p_config p = Some d -> d <> [] ->
     dict_lookup (create_payload p) "config" = Some (VDict d)) /\
  (p_config p = None \/ p_config p = Some [] ->
     dict_lookup (create_payload p) "config" = None) /\
  (forall d, p_devices p = Some d -> d <> [] ->
     dict_lookup (create_payload p) "devices" = Some (VDict d)) /\
  (p_devices p = None \/ p_devices p = Some [] ->
     dict_lookup (create_payload p) "devices" = None) /\
  NoDup (map fst (create_payload p)).
Proof.
  unfold create_payload.
  destruct (p_source p) as [[|s1 s] |], (p_config p) as [[|c1 c] |],
    (p_devices p) as [[|d1 d] |]; cbn;
    repeat match goal with
           | |- _ /\ _ => split
           | |- forall _, _ => intro
           | H : _ \/ _ |- _ => destruct H
           | H : Some _ = Some _ |- _ => inversion H; subst; clear H
           end;
    try reflexivity; try congruence;
    repeat (constructor; [simpl; intuition discriminate |]); constructor.
Qed.

Section CreateMore.

Context {W : Type} (rt : Runtime W).

(** X8: the create request always carries its payload: the command line is
    curl, the method, the two headers, [-d] with the serialised payload,
    the connect timeout and the URL. *)
Theorem create_request_carries_payload (c : RestApiClient) (p : Params) :
  command rt c "/virt/instance" "POST" (Some (BodyDict (create_payload p))) 60 =
    (["curl"; "-s"; "-k"; "-X"; "POST"]
     ++ flat_map (fun kv => ["-H"; (fst kv ++ ": " ++ snd kv)%string]) (headers c)
     ++ ["-d"; json_dumps rt (VDict (create_payload p));
         "--connect-timeout"; "60";
         (rstrip "/" (api_url c) ++ "/virt/instance")%string])%list.
Proof.
  unfold command.
  replace (body_truthy (BodyDict (create_payload p))) with true by reflexivity.
  replace (str_in "POST" ["POST"; "PUT"; "PATCH"]) with true by reflexivity.
  replace (startswith "/" "/virt/instance") with true by reflexivity.
  replace (str_int 60) with "60" by reflexivity.
  cbn [andb]. rewrite <- !app_assoc. reflexivity.
Qed.

End CreateMore.

(* ===================================================================== *)
(** ** More on the poller: what it issues and how often *)
(* ===================================================================== *)

Lemma missed_polls_events (k : nat) : Forall poll_event (missed_polls k).
Proof.
  induction k as [|k IH]; [constructor |].
  simpl. constructor; [now left |]. constructor; [now right | exact IH].
Qed.

(* After a lookup and a sleep one turn of the budget is spent. *)
Ltac spend_turn Hread Hrun Hsleep Hworld Hbudget st st1 :=
  let Hcmd := fresh "Hcmd" in
  destruct (Hread (world st)) as [? ?];
  match type of Hworld with
  | _ = snd (run_command _ ?cmd ?w) => pose proof (Hrun cmd w) as Hcmd
  end;
  rewrite <- Hworld in Hcmd;
  pose proof (Hsleep 2 (world st1));
  cbn [slept world clock_read] in *;
  match type of Hbudget with
  | context [Z.of_nat (S ?n)] =>
      replace (2 * Z.of_nat (S n))%Z with (2 * Z.of_nat n + 2)%Z in Hbudget by lia
  end;
  rewrite inject_Z_plus in Hbudget;
  unfold reading in *;
  lra.

Section PollerMore.

Context {W : Type} (rt : Runtime W).

(** However a poll ends, it has issued only lookups, each miss followed
    by a sleep of 2 seconds. *)
Lemma wait_loop_log_any (fuel : nat) (c : RestApiClient) (name desired : string)
    (timeout : Z) (start_time : Q) (st : State W) (out : outcome bool) (st' : State W) :
  wait_loop rt fuel c name desired timeout start_time st = (out, st') ->
  exists k, (k <= fuel)%nat /\
    (log st' = (log st ++ missed_polls k)%list \/
     log st' = (log st ++ missed_polls k ++ [lookup_call])%list).
Proof.
  revert st. induction fuel as [|fuel IH]; intros st Hrun.
  - inversion Hrun; subst. exists 0%nat. split; [lia |]. left.
    cbn. now rewrite app_nil_r.
  - rewrite wait_loop_step in Hrun.
    destruct (Qltb (reading rt st - start_time) (inject_Z timeout)).
    + destruct (get_instance_outcome rt c name (clock_read rt st))
        as (o & st1 & Hget & _ & Hlog & _).
      rewrite Hget in Hrun.
      assert (Hstop : st1 = st' ->
                exists k, (k <= S fuel)%nat /\
                  (log st' = (log st ++ missed_polls k)%list \/
                   log st' = (log st ++ missed_polls k ++ [lookup_call])%list)).
      { intros <-. exists 0%nat. split; [lia |]. right. exact Hlog. }
      destruct o as [found | | |]; try (apply Hstop; congruence).
      destruct (has_status desired found).
      * apply Hstop. congruence.
      * apply IH in Hrun. destruct Hrun as (k & Hk & Hrun).
        exists (S k). split; [lia |].
        cbn [slept log clock_read] in *. rewrite Hlog in Hrun.
        rewrite <- !app_assoc in Hrun. exact Hrun.
    + inversion Hrun; subst. exists 0%nat. split; [lia |]. left.
      cbn. now rewrite app_nil_r.
Qed.

Lemma wait_for_state_poll_events (fuel : nat) (c : RestApiClient) (name desired : string)
    (timeout : Z) (st : State W) (out : outcome bool) (st' : State W) :
  wait_for_state rt fuel c name desired timeout st = (out, st') ->
  exists polls, log st' = (log st ++ polls)%list /\ Forall poll_event polls.
Proof.
  intros Hrun. rewrite wait_for_state_unfold in Hrun.
  apply wait_loop_log_any in Hrun. destruct Hrun as (k & _ & [H | H]).
  - exists (missed_polls k). split; [exact H | apply missed_polls_events].
  - exists (missed_polls k ++ [lookup_call])%list. split; [exact H |].
    apply Forall_app. split; [apply missed_polls_events |].
    constructor; [now left | constructor].
Qed.

(** X9: a poll is read-only however it ends, also when a lookup raises or
    the timeout passes: what it adds to the log is lookups, each miss
    followed by one sleep of 2 seconds, and nothing else. *)
Theorem wait_for_state_is_read_only (fuel : nat) (c : RestApiClient)
    (name desired : string) (timeout : Z) (st : State W) :
  exists k,
    (k <= fuel)%nat /\
    (log (snd (wait_for_state rt fuel c name desired timeout st))
       = (log st ++ missed_polls k)%list \/
     log (snd (wait_for_state rt fuel c name desired timeout st))
       = (log st ++ missed_polls k ++ [lookup_call])%list).
Proof.
  destruct (wait_for_state rt fuel c name desired timeout st) as [out st'] eqn:Hrun.
  rewrite wait_for_state_unfold in Hrun.
  apply wait_loop_log_any in Hrun. exact Hrun.
Qed.

(** A poll that starts with a budget of [n] turns makes at most [n]
    lookups. *)
Lemma wait_loop_lookup_bound (clock : W -> Q) (c : RestApiClient) (name desired : string)
    (timeout : Z) (start_time : Q) :
  clock_sound rt clock ->
  forall (fuel n : nat) (st : State W) (b : bool) (st' : State W),
    (start_time + inject_Z timeout
       <= clock (world st) + inject_Z (2 * Z.of_nat n))%Q ->
    wait_loop rt fuel c name desired timeout start_time st = (Ok b, st') ->
    exists k,
      log st' = (log st ++ missed_polls k ++ (if b then [lookup_call] else []))%list /\
      (k + (if b then 1 else 0) <= n)%nat.
Proof.
  intros (Hread & Hrun & Hsleep).
  induction fuel as [|fuel IH]; intros n st b st' Hbudget Hloop; [discriminate |].
  rewrite wait_loop_step in Hloop.
  destruct (Qltb (reading rt st - start_time) (inject_Z timeout)) eqn:Hlt.
  - assert (Hn : exists m, n = S m).
    { destruct n as [|m]; [| eauto]. exfalso.
      apply Qltb_true in Hlt.
      destruct (Hread (world st)) as [Hlo _]. unfold reading in Hlt.
      change (inject_Z (2 * Z.of_nat 0)) with 0%Q in Hbudget. lra. }
    destruct Hn as [m ->].
    destruct (get_instance_outcome rt c name (clock_read rt st))
      as (o & st1 & Hget & Hworld & Hlog & _).
    rewrite Hget in Hloop. destruct o as [found | | |]; try discriminate.
    destruct (has_status desired found).
    + inversion Hloop; subst. exists 0%nat. split; [exact Hlog | lia].
    + apply (IH m) in Hloop.
      * destruct Hloop as (k & Hk & Hle). exists (S k). split; [| lia].
        rewrite Hk. cbn [slept log]. rewrite Hlog. cbn [clock_read log].
        rewrite <- !app_assoc. reflexivity.
      * spend_turn Hread Hrun Hsleep Hworld Hbudget st st1.
  - inversion Hloop; subst. exists 0%nat. split; [| lia].
    cbn. now rewrite app_nil_r.
Qed.

(** X10: with a sound clock a poll that returns has made at most
    (timeout + 1) / 2 lookups, however much fuel it was given: the bound
    on the requests a poll sends to the back end. *)
Theorem wait_for_state_lookup_bound (clock : W -> Q) (fuel : nat) (c : RestApiClient)
    (name desired : string) (timeout : Z) (st : State W) (b : bool) (st' : State W) :
  clock_sound rt clock ->
  wait_for_state rt fuel c name desired timeout st = (Ok b, st') ->
  exists k,
    log st' = (log st ++ missed_polls k ++ (if b then [lookup_call] else []))%list /\
    (k + (if b then 1 else 0) <= Z.to_nat ((timeout + 1) / 2))%nat.
Proof.
  intros Hsound Hrun. rewrite wait_for_state_unfold in Hrun.
  apply (wait_loop_lookup_bound clock c name desired timeout (reading rt st) Hsound
           fuel (Z.to_nat ((timeout + 1) / 2))) in Hrun; [exact Hrun |].
  destruct Hsound as (Hread & _ & _).
  destruct (Hread (world st)) as [_ Hhi].
  assert (Hz : (timeout <= 2 * Z.of_nat (Z.to_nat ((timeout + 1) / 2)))%Z).
  { pose proof (Z.div_mod (timeout + 1) 2 ltac:(lia)).
    pose proof (Z.mod_pos_bound (timeout + 1) 2 ltac:(lia)). lia. }
  rewrite Zle_Qle in Hz.
  cbn [clock_read world]. unfold reading. lra.
Qed.

(** X11: with a sound clock and a timeout that is zero or negative the poll
    returns false at once: it reads the clock twice and issues no lookup
    and no sleep. *)
Theorem wait_for_state_without_time (clock : W -> Q) (fuel : nat) (c : RestApiClient)
    (name desired : string) (timeout : Z) (st : State W) :
  clock_sound rt clock ->
  (timeout <= 0)%Z ->
  wait_for_state rt (S fuel) c name desired timeout st
    = (Ok false, clock_read rt (clock_read rt st)) /\
  log (clock_read rt (clock_read rt st)) = log st.
Proof.
  intros (Hread & _ & _) Htimeout. split; [| reflexivity].
  rewrite wait_for_state_unfold, wait_loop_step.
  replace (Qltb (reading rt (clock_read rt st) - reading rt st) (inject_Z timeout))
    with false; [reflexivity |].
  symmetry. apply Qltb_false.
  destruct (Hread (world st)) as [_ Hhi].
  destruct (Hread (world (clock_read rt st))) as [Hlo _].
  rewrite Zle_Qle in Htimeout.
  cbn [clock_read world] in *. unfold reading. cbn [clock_read world].
  change (inject_Z 0) with 0%Q in Htimeout. lra.
Qed.

End PollerMore.

Lemma wait_for_state_lookup_bound_witness :
  exists k,
    log {| world := {| Mock.script := []; Mock.clock := 4 |};
           log := [lookup_call; EvSleep 2; lookup_call; EvSleep 2] |}
      = (log (Mock.boot [Mock.served (VList [Mock.matchbox "Starting"]);
                         Mock.served (VList [Mock.matchbox "Starting"])])
         ++ missed_polls k ++ [])%list /\
    (k + 0 <= Z.to_nat ((3 + 1) / 2))%nat.
Proof.
  apply (wait_for_state_lookup_bound Mock.rt Mock.clock 9 Mock.client "matchbox" "Running" 3
           (Mock.boot [Mock.served (VList [Mock.matchbox "Starting"]);
                       Mock.served (VList [Mock.matchbox "Starting"])])
           false _ mock_clock_sound).
  reflexivity.
Defined.

Lemma wait_for_state_without_time_witness :
  wait_for_state Mock.rt 1 Mock.client "matchbox" "Running" 0
    (Mock.boot [Mock.served (VList [Mock.matchbox "Running"])])
  = (Ok false, Mock.boot [Mock.served (VList [Mock.matchbox "Running"])])
  /\ log (Mock.boot [Mock.served (VList [Mock.matchbox "Running"])]) = [].
Proof.
  apply (wait_for_state_without_time Mock.rt Mock.clock 0 Mock.client "matchbox" "Running" 0
           (Mock.boot [Mock.served (VList [Mock.matchbox "Running"])]) mock_clock_sound).
  lia.
Defined.

(* ===================================================================== *)
(** ** More on the reconciler *)
(* ===================================================================== *)

Lemma append_empty_r (s : string) : s ++ "" = s.
Proof. induction s as [|a s IH]; [reflexivity | simpl; now rewrite IH]. Qed.

Section OperationLogs.

Context {W : Type} (rt : Runtime W).

(** However a one-call operation ends, it has issued its call and it has
    not run out of fuel. *)
Lemma classifies_run (op : M W bool) (url method : string) (c : RestApiClient)
    (accepted : list Z) (prefix : string) (st st' : State W) (out : outcome bool) :
  classifies rt op url method c accepted prefix st ->
  op st = (out, st') ->
  log st' = (log st ++ [EvCall url method None])%list /\ out <> OutOfFuel.
Proof.
  intros Hcl Hop.
  destruct (classifies_outcome rt op url method c accepted prefix st Hcl)
    as (out' & st1 & Hrun & Hlog & Hout).
  rewrite Hrun in Hop. inversion Hop; subst. split; [exact Hlog |].
  destruct Hout as [-> | (msg & ->)]; discriminate.
Qed.

Lemma start_instance_run (module : AnsibleModule) (c : RestApiClient) (v : value)
    (st st' : State W) (out : outcome bool) :
  start_instance rt module c v st = (out, st') ->
  log st' = (log st ++ [action_call (format_value rt v) "/start" "POST"])%list /\
  out <> OutOfFuel.
Proof. apply classifies_run with (1 := start_instance_classifies rt module c v st). Qed.

Lemma stop_instance_run (module : AnsibleModule) (c : RestApiClient) (v : value)
    (st st' : State W) (out : outcome bool) :
  stop_instance rt module c v st = (out, st') ->
  log st' = (log st ++ [action_call (format_value rt v) "/stop" "POST"])%list /\
  out <> OutOfFuel.
Proof. apply classifies_run with (1 := stop_instance_classifies rt module c v st). Qed.

Lemma restart_instance_run (module : AnsibleModule) (c : RestApiClient) (v : value)
    (st st' : State W) (out : outcome bool) :
  restart_instance rt module c v st = (out, st') ->
  log st' = (log st ++ [action_call (format_value rt v) "/restart" "POST"])%list /\
  out <> OutOfFuel.
Proof. apply classifies_run with (1 := restart_instance_classifies rt module c v st). Qed.

Lemma delete_instance_run (module : AnsibleModule) (c : RestApiClient) (v : value)
    (st st' : State W) (out : outcome bool) :
  delete_instance rt module c v st = (out, st') ->
  (log st' = (log st ++ [action_call (format_value rt v) "/stop" "POST"])%list \/
   log st' = (log st ++ [action_call (format_value rt v) "/stop" "POST";
                         action_call (format_value rt v) "" "DELETE"])%list) /\
  out <> OutOfFuel.
Proof.
  unfold delete_instance. unfold bind at 1.
  destruct (stop_instance rt module c v st) as [o st1] eqn:Hstop.
  apply stop_instance_run in Hstop. destruct Hstop as [Hlog Hfuel].
  destruct o as [b | msg | e |]; try (intros H; inversion H; subst; split; [now left | discriminate]).
  - intros Hdel.
    apply (classifies_run _ _ _ _ _ _ _ _ _
             (one_call_classifies rt c _ "DELETE" [200; 204]
                "Failed to delete instance: " st1)) in Hdel.
    destruct Hdel as [Hlog2 Hfuel2]. split; [| exact Hfuel2].
    right. rewrite Hlog2, Hlog, <- app_assoc. unfold action_call.
    now rewrite append_empty_r.
  - congruence.
Qed.

Lemma create_instance_run (module : AnsibleModule) (c : RestApiClient)
    (st st' : State W) (out : outcome (bool * value)) :
  create_instance rt module c st = (out, st') ->
  log st' = (log st ++ [create_call (params module)])%list /\ out <> OutOfFuel.
Proof.
  unfold create_instance, bind, lift, json.
  destruct (call_returns rt c "/virt/instance" "POST"
              (Some (BodyDict (create_payload (params module)))) 60 st)
    as (resp & st1 & Hcall & _ & _ & Hlog).
  rewrite Hcall.
  destruct (int_in (status_code resp) [200; 201]);
    [destruct (json_loads rt (stdout resp)) |];
    intros H; inversion H; subst; split; try exact Hlog; discriminate.
Qed.

(** With a sound clock and fuel for (timeout + 1) / 2 misses the poll
    does not run out of fuel. *)
Lemma wait_for_state_finishes (clock : W -> Q) (fuel : nat) (c : RestApiClient)
    (name desired : string) (timeout : Z) (st : State W) :
  clock_sound rt clock ->
  (Z.to_nat ((timeout + 1) / 2) < fuel)%nat ->
  fst (wait_for_state rt fuel c name desired timeout st) <> OutOfFuel.
Proof.
  intros Hsound Hfuel. destruct fuel as [|fuel]; [lia |].
  rewrite wait_for_state_unfold.
  apply (wait_loop_terminates rt clock c name desired timeout (reading rt st) Hsound).
  destruct Hsound as (Hread & _ & _).
  destruct (Hread (world st)) as [_ Hhi].
  assert (Hz : (timeout <= 2 * Z.of_nat fuel)%Z).
  { pose proof (Z.div_mod (timeout + 1) 2 ltac:(lia)).
    pose proof (Z.mod_pos_bound (timeout + 1) 2 ltac:(lia)). lia. }
  rewrite Zle_Qle in Hz.
  cbn [clock_read world]. unfold reading. lra.
Qed.

End OperationLogs.

(* The log at a leaf of a run, from the logs of the operations before it. *)
Ltac leaf_log :=
  repeat match goal with
         | H : log ?s = _ |- context [log ?s] => rewrite H
         end;
  rewrite <- ?app_assoc;
  first [reflexivity | symmetry; apply app_nil_r].

(* A leaf of a run that did not poll. *)
Ltac leaf :=
  do 2 eexists; split; [reflexivity |];
  split;
  [ eexists; split; [leaf_log | cbn [app]; eauto 8 using Forall_nil]
  | intros _ _; first [discriminate | congruence] ].

(* A leaf of a run that polled. *)
Ltac polled Hfin :=
  do 2 eexists; split; [reflexivity |];
  split;
  [ eexists; split; [leaf_log | cbn [app]; eauto 8]
  | intros Hsound Hfuel;
    first [discriminate | exfalso; apply (Hfin Hsound Hfuel); reflexivity] ].

Lemma subscript_cases (v : value) (k : string) :
  (exists x, subscript v k = Ok x) \/
  subscript v k = Raise KeyError \/ subscript v k = Raise TypeError.
Proof.
  destruct v as [| | | | |d]; simpl; auto.
  destruct (dict_lookup d k); eauto.
Qed.

Section RunTrace.

Context {W : Type} (rt : Runtime W).

(** A real run after a lookup that returned: what it issues, by desired
    state, and that it does not run out of fuel when the poll does not. *)
Lemma real_run_trace (clock : W -> Q) (fuel : nat) (p : Params) (st st1 : State W)
    (found : value) :
  opt_str_truthy (p_api_key p) = true ->
  get_instance rt (client_of p) (p_name p) st = (Ok found, st1) ->
  exists out st',
    main rt fuel {| params := p; check_mode := false |} st = (out, st') /\
    (exists rest, log st' = (log st1 ++ rest)%list /\ after_lookup p rest) /\
    (clock_sound rt clock -> (Z.to_nat ((p_timeout p + 1) / 2) < fuel)%nat ->
     out <> OutOfFuel).
Proof.
  intros Hkey Hget.
  destruct (get_instance_found rt _ _ _ _ _ Hget) as [_ [-> | (d & -> & Ht)]];
    [| destruct d as [|kv d]; [discriminate Ht |]];
    enter_main Hkey Hget; unfold after_lookup;
    destruct (p_state p) eqn:Hstate;
    unfold bind, lift, ret, fail_json, exit_json;
    cbn [py_get param_value negb truthy];
    try solve [leaf].
  - (* present, nothing found *)
    destruct (create_instance rt _ _ st1) as [[created | msg | e |] st2] eqn:Hc;
      apply create_instance_run in Hc; destruct Hc as [Hl2 Hf2]; cbn [params] in Hl2;
      try solve [leaf].
    destruct (truthy (snd created)); [| leaf].
    destruct (p_config p) as [cfg |]; cbn [py_get param_value]; [| leaf].
    destruct (value_eq_str (dict_get cfg "boot.autostart") "true"); [| leaf].
    destruct (subscript_cases (snd created) "id") as [(idv & ->) | [-> | ->]];
      try solve [leaf].
    destruct (start_instance rt _ _ idv st2) as [[b | msg | e |] st3] eqn:Hs;
      apply start_instance_run in Hs; destruct Hs as [Hl3 Hf3];
      solve [leaf].
  - (* absent, found *)
    cbn [subscript].
    destruct (dict_lookup (kv :: d) "id") as [idv |]; [| leaf].
    destruct (delete_instance rt _ _ idv st1) as [[b | msg | e |] st2] eqn:Hd;
      apply delete_instance_run in Hd; destruct Hd as [[Hl2 | Hl2] Hf2];
      solve [leaf].
  - (* started, found *)
    destruct (value_eq_str (dict_get (kv :: d) "status") "Running");
      cbn [negb]; [leaf |].
    cbn [subscript].
    destruct (dict_lookup (kv :: d) "id") as [idv |]; [| leaf].
    destruct (start_instance rt _ _ idv st1) as [[b | msg | e |] st2] eqn:Hs;
      apply start_instance_run in Hs; destruct Hs as [Hl2 Hf2];
      try solve [leaf].
    destruct (wait_for_state rt fuel (client_of p) (p_name p) "Running" (p_timeout p) st2)
      as [[r | msg | e |] st3] eqn:Hw;
      pose proof (wait_for_state_finishes rt clock fuel (client_of p) (p_name p)
                    "Running" (p_timeout p) st2) as Hfin;
      rewrite Hw in Hfin;
      apply wait_for_state_poll_events in Hw; destruct Hw as (polls & Hl3 & Hpolls);
      solve [polled Hfin].
  - (* stopped, found *)
    destruct (value_eq_str (dict_get (kv :: d) "status") "Stopped");
      cbn [negb]; [leaf |].
    cbn [subscript].
    destruct (dict_lookup (kv :: d) "id") as [idv |]; [| leaf].
    destruct (stop_instance rt _ _ idv st1) as [[b | msg | e |] st2] eqn:Hs;
      apply stop_instance_run in Hs; destruct Hs as [Hl2 Hf2];
      try solve [leaf].
    destruct (wait_for_state rt fuel (client_of p) (p_name p) "Stopped" (p_timeout p) st2)
      as [[r | msg | e |] st3] eqn:Hw;
      pose proof (wait_for_state_finishes rt clock fuel (client_of p) (p_name p)
                    "Stopped" (p_timeout p) st2) as Hfin;
      rewrite Hw in Hfin;
      apply wait_for_state_poll_events in Hw; destruct Hw as (polls & Hl3 & Hpolls);
      solve [polled Hfin].
  - (* restarted, found *)
    cbn [subscript].
    destruct (dict_lookup (kv :: d) "id") as [idv |]; [| leaf].
    destruct (restart_instance rt _ _ idv st1) as [[b | msg | e |] st2] eqn:Hs;
      apply restart_instance_run in Hs; destruct Hs as [Hl2 Hf2];
      try solve [leaf].
    destruct (wait_for_state rt fuel (client_of p) (p_name p) "Running" (p_timeout p) st2)
      as [[r | msg | e |] st3] eqn:Hw;
      pose proof (wait_for_state_finishes rt clock fuel (client_of p) (p_name p)
                    "Running" (p_timeout p) st2) as Hfin;
      rewrite Hw in Hfin;
      apply wait_for_state_poll_events in Hw; destruct Hw as (polls & Hl3 & Hpolls);
      solve [polled Hfin].
Qed.

(** Any run: what it issues, and that it does not run out of fuel. *)
Lemma run_trace (clock : W -> Q) (fuel : nat) (module : AnsibleModule) (st : State W) :
  exists out st',
    main rt fuel module st = (out, st') /\
    (exists evs, log st' = (log st ++ evs)%list /\ run_shape (params module) evs) /\
    (clock_sound rt clock ->
     (Z.to_nat ((p_timeout (params module) + 1) / 2) < fuel)%nat ->
     out <> OutOfFuel).
Proof.
  destruct module as [p check].
  destruct (opt_str_truthy (p_api_key p)) eqn:Hkey.
  2: { rewrite main_without_key by exact Hkey. do 2 eexists. split; [reflexivity |].
       split; [| intros _ _; discriminate].
       exists []. split; [now rewrite app_nil_r | now left]. }
  destruct (get_instance_outcome rt (client_of p) (p_name p) st)
    as (o & st1 & Hget & _ & Hlog & Hcases).
  assert (Hlookup : forall (st' : State W) rest,
            log st' = (log st1 ++ rest)%list -> after_lookup p rest ->
            exists evs, log st' = (log st ++ evs)%list /\ run_shape p evs).
  { intros st' rest Hrest Hshape. exists (lookup_call :: rest). split.
    - rewrite Hrest, Hlog, <- app_assoc. reflexivity.
    - right. exists rest. auto. }
  assert (Hfound : forall found, o = Ok found ->
            exists out st',
              main rt fuel {| params := p; check_mode := check |} st = (out, st') /\
              (exists evs, log st' = (log st ++ evs)%list /\ run_shape p evs) /\
              (clock_sound rt clock ->
               (Z.to_nat ((p_timeout p + 1) / 2) < fuel)%nat -> out <> OutOfFuel)).
  { intros found ->. destruct check.
    - rewrite (dry_run_result rt fuel p st st1 found Hkey Hget).
      do 2 eexists. split; [reflexivity |]. split.
      + apply (Hlookup st1 []); [now rewrite app_nil_r | now left].
      + intros _ _. destruct (needs_instance (p_state p) && negb (truthy found));
          discriminate.
    - destruct (real_run_trace clock fuel p st st1 found Hkey Hget)
        as (out & st' & Hmain & (rest & Hrest & Hshape) & Hfin).
      exists out, st'. split; [exact Hmain |]. split; [| exact Hfin].
      apply (Hlookup st' rest Hrest Hshape). }
  destruct Hcases as [-> | [(x & -> & _) | (e & ->)]].
  - apply (Hfound VNone eq_refl).
  - apply (Hfound x eq_refl).
  - rewrite (main_lookup_raises rt fuel {| params := p; check_mode := check |}
               st st1 e Hkey Hget).
    do 2 eexists. split; [reflexivity |]. split; [| intros _ _; discriminate].
    apply (Hlookup st1 []); [now rewrite app_nil_r | now left].
Qed.

(** X12: whatever the parameters and the back end, a run of [main] issues
    nothing, or the lookup first and then at most what its desired state
    allows: for present a create and then a start; for absent a stop and
    then a DELETE; for started, stopped and restarted that one action and
    then only the lookups and sleeps of the poll. In particular only
    absent ever issues a DELETE and only present a create. *)
Theorem main_run_shape (fuel : nat) (module : AnsibleModule) (st : State W) :
  exists evs,
    log (snd (main rt fuel module st)) = (log st ++ evs)%list /\
    run_shape (params module) evs.
Proof.
  destruct (run_trace (fun _ => 0%Q) fuel module st) as (out & st' & Hmain & Hshape & _).
  rewrite Hmain. exact Hshape.
Qed.

(** X13: with a sound clock and fuel for (timeout + 1) / 2 misses of the
    poll, [main] ends in [exit_json], in [fail_json] or in an exception:
    the run cannot hang in the polling loop. *)
Theorem main_finishes (clock : W -> Q) (fuel : nat) (module : AnsibleModule)
    (st : State W) :
  clock_sound rt clock ->
  (Z.to_nat ((p_timeout (params module) + 1) / 2) < fuel)%nat ->
  fst (main rt fuel module st) <> OutOfFuel.
Proof.
  intros Hsound Hfuel.
  destruct (run_trace clock fuel module st) as (out & st' & Hmain & _ & Hfin).
  rewrite Hmain. exact (Hfin Hsound Hfuel).
Qed.

End RunTrace.

Lemma main_finishes_witness :
  fst (main Mock.rt 3 (Mock.task started None false)
         (Mock.boot [Mock.served (VList [Mock.matchbox "Stopped"]); (0, "", "")]))
  <> OutOfFuel.
Proof.
  apply (main_finishes Mock.rt Mock.clock 3 (Mock.task started None false));
    [exact mock_clock_sound | vm_compute; lia].
Defined.

Section ReconcilerMore.

Context {W : Type} (rt : Runtime W).

(** X14: without an API key, not supplied or empty, [main] ends in
    [fail_json] before anything is sent: the state of the world and the
    log are untouched, whatever the desired state and the check mode. *)
Theorem missing_api_key_fails_before_any_call (fuel : nat) (module : AnsibleModule)
    (st : State W) :
  p_api_key (params module) = None \/ p_api_key (params module) = Some "" ->
  main rt fuel module st = (FailJson "api_key is required for REST API access", st).
Proof.
  intros Hkey. apply main_without_key.
  destruct Hkey as [-> | ->]; reflexivity.
Qed.

(** X15: [started] on an instance whose status is already Running, and
    [stopped] on one that is already Stopped, change nothing: the run
    reports changed=false with the record found and has issued the lookup
    only, in check mode and in a real run alike. *)
Theorem already_in_state_is_noop (fuel : nat) (module : AnsibleModule)
    (st st1 : State W) (found : value) :
  let p := params module in
  p_state p = started \/ p_state p = stopped ->
  opt_str_truthy (p_api_key p) = true ->
  get_instance rt (client_of p) (p_name p) st = (Ok found, st1) ->
  has_status (target_status (p_state p)) found = true ->
  main rt fuel module st = (Ok {| changed := false; instance := found |}, st1) /\
  log st1 = (log st ++ [lookup_call])%list.
Proof.
  intros p Hstate Hkey Hget Hstatus. subst p.
  split; [| apply (get_instance_found rt _ _ _ _ _ Hget)].
  destruct found as [| | | | |d]; try discriminate Hstatus.
  destruct (get_instance_found rt _ _ _ _ _ Hget) as [_ [Hnone | (d' & _ & Ht)]];
    [discriminate Hnone |].
  enter_main Hkey Hget. rewrite Ht.
  destruct Hstate as [Hs | Hs]; rewrite Hs in Hstatus |- *;
    cbn [target_status has_status] in Hstatus;
    unfold bind, lift; cbn [py_get]; rewrite Hstatus; reflexivity.
Qed.

(** X16: a real run that has to act on a found record without an id field
    ends with [KeyError] before any mutation: the lookup is the only call
    issued. This is absent, restarted, and started or stopped on an
    instance not yet in that state. *)
Theorem missing_id_raises_before_mutation (fuel : nat) (module : AnsibleModule)
    (st st1 : State W) (d : dict) :
  let p := params module in
  check_mode module = false ->
  p_state p <> present ->
  opt_str_truthy (p_api_key p) = true ->
  get_instance rt (client_of p) (p_name p) st = (Ok (VDict d), st1) ->
  dict_lookup d "id" = None ->
  would_mutate (p_state p) (VDict d) = true ->
  main rt fuel module st = (Raise KeyError, st1) /\
  log st1 = (log st ++ [lookup_call])%list.
Proof.
  intros p Hcheck Hstate Hkey Hget Hid Hmutate. subst p.
  split; [| apply (get_instance_found rt _ _ _ _ _ Hget)].
  destruct (get_instance_found rt _ _ _ _ _ Hget) as [_ [Hnone | (d' & _ & Ht)]];
    [discriminate Hnone |].
  enter_main Hkey Hget. rewrite Ht, Hcheck.
  destruct (p_state (params module)); try congruence;
    cbn [would_mutate has_status negb] in *;
    unfold bind, lift; cbn [py_get subscript]; rewrite ?Hmutate, Hid; reflexivity.
Qed.

(** X17: [present] whose create call is refused ends in [fail_json] with
    the response text; the lookup and the create call are all it issued,
    so no start follows. *)
Theorem create_refused_is_fatal (fuel : nat) (module : AnsibleModule)
    (st st1 st2 : State W) (resp : ApiResponse) :
  let p := params module in
  p_state p = present ->
  check_mode module = false ->
  opt_str_truthy (p_api_key p) = true ->
  get_instance rt (client_of p) (p_name p) st = (Ok VNone, st1) ->
  call rt (client_of p) "/virt/instance" "POST" (Some (BodyDict (create_payload p))) 60 st1
    = (Ok resp, st2) ->
  ~ In (status_code resp) [200; 201] ->
  main rt fuel module st
    = (FailJson ("Failed to create instance: " ++ text resp), st2) /\
  log st2 = (log st ++ [lookup_call; create_call p])%list.
Proof.
  intros p Hstate Hcheck Hkey Hget Hcall Hout. subst p. split.
  - enter_main Hkey Hget. rewrite Hstate, Hcheck. cbn [truthy negb].
    unfold bind at 1. unfold create_instance, bind. rewrite Hcall.
    apply int_in_not_In in Hout. now rewrite Hout.
  - destruct (call_returns rt (client_of (params module)) "/virt/instance" "POST"
                (Some (BodyDict (create_payload (params module)))) 60 st1)
      as (resp' & st2' & Hcall' & _ & _ & Hlog).
    rewrite Hcall in Hcall'. inversion Hcall'; subst.
    rewrite Hlog. destruct (get_instance_found rt _ _ _ _ _ Hget) as [-> _].
    now rewrite <- app_assoc.
Qed.

(** X18: no rollback. When [present] has created the instance and the
    automatic start is refused, the run ends in [fail_json] with the text
    of the start response; the create call stays issued and nothing is sent
    after the start, so the instance remains on the back end. *)
Theorem autostart_refused_after_create (fuel : nat) (module : AnsibleModule)
    (st st1 st2 st3 : State W) (created refused : ApiResponse) (cfg : dict)
    (record instance_id : value) :
  let p := params module in
  p_state p = present ->
  check_mode module = false ->
  p_config p = Some cfg ->
  value_eq_str (dict_get cfg "boot.autostart") "true" = true ->
  opt_str_truthy (p_api_key p) = true ->
  get_instance rt (client_of p) (p_name p) st = (Ok VNone, st1) ->
  call rt (client_of p) "/virt/instance" "POST" (Some (BodyDict (create_payload p))) 60 st1
    = (Ok created, st2) ->
  In (status_code created) [200; 201] ->
  json rt created = Ok record ->
  subscript record "id" = Ok instance_id ->
  call rt (client_of p) ("/virt/instance/" ++ format_value rt instance_id ++ "/start")
    "POST" None 60 st2 = (Ok refused, st3) ->
  ~ In (status_code refused) [200; 202; 409] ->
  main rt fuel module st
    = (FailJson ("Failed to start instance: " ++ text refused), st3) /\
  log st3 = (log st ++ [lookup_call; create_call p;
                        action_call (format_value rt instance_id) "/start" "POST"])%list.
Proof.
  intros p Hstate Hcheck Hcfg Hauto Hkey Hget Hcreate Hin Hjson Hid Hstart Hout. subst p.
  destruct (present_creates_then_autostarts rt fuel module st st1 st2 created record cfg
              Hstate Hcheck Hcfg Hkey Hget Hcreate Hin Hjson) as [Hlog2 Hmain].
  assert (Htruthy : truthy record = true).
  { destruct record as [| | | | |d]; try discriminate Hid.
    destruct d; [discriminate Hid | reflexivity]. }
  rewrite Htruthy, Hauto in Hmain. cbn [andb] in Hmain.
  destruct (start_instance_classifies rt module (client_of (params module)) instance_id st2)
    as (resp & st' & Hcall & Hlog3 & _ & Hfail).
  rewrite Hstart in Hcall. inversion Hcall; subst resp st'.
  split.
  - rewrite Hmain. unfold bind, lift. rewrite Hid.
    now rewrite (Hfail Hout).
  - rewrite Hlog3, Hlog2, <- app_assoc. reflexivity.
Qed.

(** X19: [wait_for_ipv4] is dead: a run with the flag set and a run with it
    cleared end the same way in the same state. *)
Theorem wait_for_ipv4_is_ignored (fuel : nat) (p : Params) (check flag : bool)
    (st : State W) :
  main rt fuel {| params := set_wait_for_ipv4 p flag; check_mode := check |} st =
  main rt fuel {| params := p; check_mode := check |} st.
Proof.
  destruct p. reflexivity.
Qed.

End ReconcilerMore.

Lemma missing_api_key_fails_before_any_call_witness :
  main Mock.rt 5
    {| params := {| p_name := "matchbox"; p_state := absent; p_type := CONTAINER;
                    p_source := None; p_config := None; p_devices := None;
                    p_wait_for_ipv4 := false; p_timeout := 60;
                    p_api_url := None; p_api_key := Some "" |};
       check_mode := false |}
    (Mock.boot [Mock.served (VList [Mock.matchbox "Running"])])
  = (FailJson "api_key is required for REST API access",
     Mock.boot [Mock.served (VList [Mock.matchbox "Running"])]).
Proof.
  apply missing_api_key_fails_before_any_call. right. reflexivity.
Defined.

Lemma already_in_state_is_noop_witness :
  let st1 := {| world := {| Mock.script := []; Mock.clock := 0 |};
                log := [lookup_call] |} in
  main Mock.rt 5 (Mock.task started None false)
    (Mock.boot [Mock.served (VList [Mock.matchbox "Running"])])
  = (Ok {| changed := false; instance := Mock.matchbox "Running" |}, st1)
  /\ log st1 = [lookup_call].
Proof.
  apply (already_in_state_is_noop Mock.rt 5 (Mock.task started None false)
           (Mock.boot [Mock.served (VList [Mock.matchbox "Running"])]));
    try reflexivity.
  left. reflexivity.
Defined.

Lemma missing_id_raises_before_mutation_witness :
  let st1 := {| world := {| Mock.script := []; Mock.clock := 0 |};
                log := [lookup_call] |} in
  main Fixtures.rt 5 (Mock.task absent None false)
    (Mock.boot [Mock.served (VList [Fixtures.no_id "Running"])])
  = (Raise KeyError, st1)
  /\ log st1 = [lookup_call].
Proof.
  apply (missing_id_raises_before_mutation Fixtures.rt 5 (Mock.task absent None false)
           (Mock.boot [Mock.served (VList [Fixtures.no_id "Running"])])
           _ [("name", VStr "matchbox"); ("status", VStr "Running")]);
    try reflexivity.
  discriminate.
Defined.

Lemma create_refused_is_fatal_witness :
  let module := Mock.task present None false in
  let st2 := {| world := {| Mock.script := []; Mock.clock := 0 |};
                log := [lookup_call; create_call (params module)] |} in
  main Mock.rt 5 module
    (Mock.boot [Mock.served (VList []);
                (22, "", "curl: (22) The requested URL returned error: 403")])
  = (FailJson "Failed to create instance: curl: (22) The requested URL returned error: 403",
     st2)
  /\ log st2 = [lookup_call; create_call (params module)].
Proof.
  apply (create_refused_is_fatal Mock.rt 5 (Mock.task present None false)
           (Mock.boot [Mock.served (VList []);
                       (22, "", "curl: (22) The requested URL returned error: 403")])
           {| world := {| Mock.script :=
                            [(22, "", "curl: (22) The requested URL returned error: 403")];
                          Mock.clock := 0 |};
              log := [lookup_call] |}
           _ {| rc := 22; stdout := "";
                stderr := "curl: (22) The requested URL returned error: 403" |});
    try reflexivity.
  simpl. intros [H | [H | []]]; discriminate.
Defined.

Lemma autostart_refused_after_create_witness :
  let module := Mock.task present (Some [("boot.autostart", VStr "true")]) false in
  let st3 := {| world := {| Mock.script := []; Mock.clock := 0 |};
                log := [lookup_call; create_call (params module);
                        action_call "123" "/start" "POST"] |} in
  main Mock.rt 5 module
    (Mock.boot [Mock.served (VList []);
                Mock.served (Mock.matchbox "Stopped");
                (7, "", "curl: (7) Failed to connect")])
  = (FailJson "Failed to start instance: curl: (7) Failed to connect", st3)
  /\ log st3 = [lookup_call; create_call (params module);
                action_call "123" "/start" "POST"].
Proof.
  apply (autostart_refused_after_create Mock.rt 5
           (Mock.task present (Some [("boot.autostart", VStr "true")]) false)
           (Mock.boot [Mock.served (VList []);
                       Mock.served (Mock.matchbox "Stopped");
                       (7, "", "curl: (7) Failed to connect")])
           {| world := {| Mock.script := [Mock.served (Mock.matchbox "Stopped");
                                          (7, "", "curl: (7) Failed to connect")];
                          Mock.clock := 0 |};
              log := [lookup_call] |}
           {| world := {| Mock.script := [(7, "", "curl: (7) Failed to connect")];
                          Mock.clock := 0 |};
              log := [lookup_call;
                      create_call (params (Mock.task present
                                             (Some [("boot.autostart", VStr "true")])
                                             false))] |}
           _
           {| rc := 0; stdout := Mock.mock_dumps (Mock.matchbox "Stopped"); stderr := "" |}
           {| rc := 7; stdout := ""; stderr := "curl: (7) Failed to connect" |}
           [("boot.autostart", VStr "true")] (Mock.matchbox "Stopped") (VStr "123"));
    try reflexivity.
  - simpl. auto.
  - simpl. intros [H | [H | [H | []]]]; discriminate.
Defined.

(* ===================================================================== *)
(** ** The transport against curl *)
(* ===================================================================== *)

Lemma flag_is_no_path (flag a u : string) :
  contains "/" flag = false -> (flag =? a ++ String "/" u)%string = false.
Proof.
  intros Hflag. destruct (String.eqb_spec flag (a ++ String "/" u)) as [Heq | Hne];
    [| reflexivity].
  exfalso. assert (Hocc : contains "/" flag = true).
  { apply contains_occurs. exists a, u. exact Heq. }
  congruence.
Qed.

Lemma leading_slash (url : string) :
  startswith "/" url = true -> exists u, url = String "/" u.
Proof.
  unfold startswith. intros H. apply prefix_occurs in H. exact H.
Qed.

(** The command line [call] builds for the module never asks curl to
    fail on an HTTP error. *)
Lemma command_without_fail_flag {W} (rt : Runtime W) (p : Params) (url method : string) :
  startswith "/" url = true ->
  In method ["GET"; "POST"; "DELETE"] ->
  Curl.fail_flag (command rt (client_of p) url method None 60) = false.
Proof.
  intros Hslash Hmethod. destruct (leading_slash url Hslash) as [u ->].
  unfold command, client_of. cbn [headers api_url flat_map app fst snd].
  rewrite Hslash.
  unfold Curl.fail_flag, str_in. cbn [existsb].
  rewrite !flag_is_no_path by reflexivity.
  destruct Hmethod as [<- | [<- | [<- | []]]]; reflexivity.
Qed.

(** C1 at the input where the code departs from it: the server answers
    a request of the module with an HTTP status of 400 or more. The
    command line has no [--fail], so curl ends with exit code 0 and the
    body on stdout, and [status_code] reports 200: the reply is not
    surfaced as its 4xx/5xx status, nor as any status that tells it from
    a success. *)
Theorem http_error_reply_is_reported_as_200 (p : Params) (url method : string)
    (status : Z) (body : string) (rest : list Curl.exchange) (t : Q)
    (events : list event) :
  400 <= status ->
  startswith "/" url = true ->
  In method ["GET"; "POST"; "DELETE"] ->
  exists resp st',
    call Curl.rt (client_of p) url method None 60
      {| world := {| Curl.exchanges := Curl.Answered status body :: rest;
                     Curl.clock := t |};
         log := events |}
      = (Ok resp, st') /\
    rc resp = 0 /\ stdout resp = body /\ status_code resp = 200.
Proof.
  intros Hstatus Hslash Hmethod.
  unfold call. cbn [run_command Curl.rt world].
  unfold Curl.curl_run_command. cbn [Curl.exchanges].
  rewrite (command_without_fail_flag Curl.rt p url method Hslash Hmethod).
  cbn [andb]. do 2 eexists. split; [reflexivity |].
  repeat split.
Qed.

Lemma http_error_reply_is_reported_as_200_witness :
  exists resp st',
    call Curl.rt (client_of (params (Mock.task started None false)))
      "/virt/instance/123/start" "POST" None 60
      {| world := {| Curl.exchanges := [Curl.Answered 500 "Internal Server Error"];
                     Curl.clock := 0 |};
         log := [] |}
      = (Ok resp, st') /\
    rc resp = 0 /\ stdout resp = "Internal Server Error" /\ status_code resp = 200.
Proof.
  apply (http_error_reply_is_reported_as_200
           (params (Mock.task started None false)) "/virt/instance/123/start" "POST"
           500 "Internal Server Error" [] 0 []).
  - lia.
  - reflexivity.
  - simpl. auto.
Defined.

(** What the claim says of a failed connection does hold: curl's own exit
    codes, other than 0 and 22, are surfaced as 500. *)
Lemma no_reply_is_reported_as_500 (p : Params) (url method : string)
    (exit_code : Z) (rest : list Curl.exchange) (t : Q) (events : list event) :
  exit_code <> 0 -> exit_code <> 22 ->
  exists resp st',
    call Curl.rt (client_of p) url method None 60
      {| world := {| Curl.exchanges := Curl.NoReply exit_code :: rest;
                     Curl.clock := t |};
         log := events |}
      = (Ok resp, st') /\
    rc resp = exit_code /\ status_code resp = 500.
Proof.
  intros H0 H22. unfold call. cbn [run_command Curl.rt world].
  unfold Curl.curl_run_command. cbn [Curl.exchanges].
  do 2 eexists. split; [reflexivity |]. split; [reflexivity |].
  now apply status_code_other_exit.
Qed.

(** The consequence for a task: [started] on a stopped instance whose
    start request the server answers with 500 reports changed=true. *)
Example server_error_on_start_passes_for_success :
  fst (main Curl.rt 5 (Mock.task started None false)
         (Curl.boot
            [Curl.Answered 200 (Mock.mock_dumps (VList [Mock.matchbox "Stopped"]));
             Curl.Answered 500 "Internal Server Error";
             Curl.Answered 200 (Mock.mock_dumps (VList [Mock.matchbox "Stopped"]));
             Curl.Answered 200 (Mock.mock_dumps (VList [Mock.matchbox "Stopped"]))]))
  = Ok {| changed := true; instance := Mock.matchbox "Stopped" |}.
Proof. vm_compute. reflexivity. Qed.
